(** * Flooding calculations of a distillation column (main.py)

    A shallow embedding of the class [DistillationColumn] of [main.py] and
    the properties of its constructor and of its four methods.

    Conventions of the embedding.
    - Python numbers are real numbers: an [int] or a [float] is an element
      of [R], arithmetic is exact, and a decimal literal of the source
      denotes its decimal value.  Rounding, overflow, infinities and NaN of
      IEEE doubles are outside the model.  [math.pi] is the constant that
      CPython prints, [3.141592653589793].
    - A number that a float power may produce is a [pynum]: a float, or a
      complex number when the base is negative and the exponent is not
      integral.
    - Python exceptions are explicit: an operation returns an [outcome],
      a value or the exception raised.  [ZeroDivisionError] is what the
      spec calls DivisionByZero, [ValueError] (the "math domain error"
      of [math.sqrt] and [math.log10]) is the nearest thing the code has
      to InvalidParameter.
    - A method is a computation over the instance [self]: it takes the
      instance and returns its outcome together with the instance as the
      call leaves it.
    - Where a property turns on the rounding of IEEE doubles, the two
      expressions concerned, the flow parameter of line 40 and the area of
      line 22, are also given on binary64 floats, with the correctly
      rounded [*], [/] and [sqrt] of the machine. *)

From Stdlib Require Import Floats.
From Stdlib Require Import Reals Lra Lia R_Ifp Machin String List.
Import ListNotations.

#[local] Set Warnings "-inexact-float".

Open Scope R_scope.

(** ** Exceptions and outcomes *)

Inductive exn : Set :=
| ZeroDivisionError
| ValueError.

Inductive outcome (A : Type) : Type :=
| Ok (a : A)
| Raise (e : exn).

Arguments Ok {A} a.
Arguments Raise {A} e.

(** ** Computations: exceptions alone, and exceptions over an instance *)

Class Monad (m : Type -> Type) : Type := {
  ret : forall {A : Type}, A -> m A;
  bind : forall {A B : Type}, m A -> (A -> m B) -> m B
}.

Declare Scope py_scope.
Delimit Scope py_scope with py.
Notation "x <- c ;; k" := (bind c (fun x => k))
  (at level 100, c at next level, right associativity) : py_scope.
Notation "' p <- c ;; k" := (bind c (fun p => k))
  (at level 100, p pattern, c at next level, right associativity) : py_scope.
Open Scope py_scope.

#[export] Instance outcome_monad : Monad outcome := {
  ret := fun A a => Ok a;
  bind := fun A B c k =>
    match c with
    | Ok a => k a
    | Raise e => Raise e
    end
}.

(** A method body over an instance of type [S]. *)
Definition method (S A : Type) : Type := S -> outcome A * S.

#[export] Instance method_monad (S : Type) : Monad (method S) := {
  ret := fun A a self => (Ok a, self);
  bind := fun A B c k self =>
    match c self with
    | (Ok a, self') => k a self'
    | (Raise e, self') => (Raise e, self')
    end
}.

(** [self.f]: reading an attribute. *)
Definition attr {S A : Type} (f : S -> A) : method S A :=
  fun self => (Ok (f self), self).

(** An expression that may raise, evaluated inside a method. *)
Definition expr {S A : Type} (c : outcome A) : method S A :=
  fun self => (c, self).

(** ** Python numbers and the operators the program uses *)

Inductive pynum : Type :=
| PyFloat (x : R)
| PyComplex (re im : R).

(** [math.pi] *)
Definition math_pi : R := 3.141592653589793.

(** [x / y] on floats and ints. *)
Definition truediv (x y : R) : outcome R :=
  if Req_dec_T y 0 then Raise ZeroDivisionError else Ok (x / y).

(** [math.sqrt(x)] *)
Definition math_sqrt (x : R) : outcome R :=
  if Rlt_dec x 0 then Raise ValueError else Ok (sqrt x).

(** [math.log10(x)] *)
Definition math_log10 (x : R) : outcome R :=
  if Rle_dec x 0 then Raise ValueError else Ok (ln x / ln 10).

(** [x ** y] with a float exponent.  A positive base gives [exp (y * ln x)];
    a zero base gives 1 for [y = 0], 0 for [y > 0], and raises for [y < 0];
    a negative base gives a float for an integral exponent and the principal
    complex value [|x|^y * (cos (y*pi) + i sin (y*pi))] otherwise. *)
Definition float_pow (x y : R) : outcome pynum :=
  if Req_dec_T y 0 then Ok (PyFloat 1)
  else if Rlt_dec 0 x then Ok (PyFloat (Rpower x y))
  else if Req_dec_T x 0 then
    if Rlt_dec y 0 then Raise ZeroDivisionError else Ok (PyFloat 0)
  else if Req_dec_T (frac_part y) 0 then Ok (PyFloat (powerRZ x (Int_part y)))
  else Ok (PyComplex (Rpower (- x) y * cos (y * PI))
                     (Rpower (- x) y * sin (y * PI))).

(** [a * b] on numbers. *)
Definition py_mul (a b : pynum) : pynum :=
  match a, b with
  | PyFloat x, PyFloat y => PyFloat (x * y)
  | PyFloat x, PyComplex c d => PyComplex (x * c) (x * d)
  | PyComplex c d, PyFloat y => PyComplex (c * y) (d * y)
  | PyComplex a1 b1, PyComplex c d =>
      PyComplex (a1 * c - b1 * d) (a1 * d + b1 * c)
  end.

(** [a / b] on numbers: [ZeroDivisionError] when the divisor is zero. *)
Definition py_truediv (a b : pynum) : outcome pynum :=
  match a, b with
  | PyFloat x, PyFloat y => r <- truediv x y ;; ret (PyFloat r)
  | PyComplex c d, PyFloat y =>
      if Req_dec_T y 0 then Raise ZeroDivisionError
      else Ok (PyComplex (c / y) (d / y))
  | PyFloat x, PyComplex c d =>
      if Req_dec_T (c * c + d * d) 0 then Raise ZeroDivisionError
      else Ok (PyComplex (x * c / (c * c + d * d))
                         (- (x * d) / (c * c + d * d)))
  | PyComplex a1 b1, PyComplex c d =>
      if Req_dec_T (c * c + d * d) 0 then Raise ZeroDivisionError
      else Ok (PyComplex ((a1 * c + b1 * d) / (c * c + d * d))
                         ((b1 * c - a1 * d) / (c * c + d * d)))
  end.

(** ** The class *)

(** The attributes an instance holds once [__init__] has run. *)
Record DistillationColumn : Type := {
  diameter : R;
  Dmole_flow : R;
  Bmole_flow : R;
  Dmass_flow : R;
  Bmass_flow : R;
  reflux_ratio : R;
  boilup_ratio : R;
  liquid_density : R;
  vapor_density : R;
  molecular_weight : R;
  surface_tension : R;
  cross_sectional_area : R
}.

(** [DistillationColumn(diameter, Dmole_flow, ..., surface_tension)]:
    eleven assignments, then the area from [self.diameter]. *)
Definition __init__
    (diameter Dmole_flow Bmole_flow Dmass_flow Bmass_flow reflux_ratio
     boilup_ratio liquid_density vapor_density molecular_weight
     surface_tension : R) : outcome DistillationColumn :=
  area <- truediv (0.85 * (math_pi * diameter ^ 2)) 4 ;;
  ret {| diameter := diameter;
         Dmole_flow := Dmole_flow;
         Bmole_flow := Bmole_flow;
         Dmass_flow := Dmass_flow;
         Bmass_flow := Bmass_flow;
         reflux_ratio := reflux_ratio;
         boilup_ratio := boilup_ratio;
         liquid_density := liquid_density;
         vapor_density := vapor_density;
         molecular_weight := molecular_weight;
         surface_tension := surface_tension;
         cross_sectional_area := area |}.

Definition calculate_flow_rates : method DistillationColumn (R * R * R * R) :=
  D <- attr Dmole_flow ;; rr <- attr reflux_ratio ;;
  let Vmole_flow := D * (rr + 1) in
  B <- attr Bmole_flow ;; br <- attr boilup_ratio ;;
  let Bmole_flow := B * (br + 1) in
  Dm <- attr Dmass_flow ;; rr <- attr reflux_ratio ;;
  let Vmass_flow := Dm * (rr + 1) in
  Bm <- attr Bmass_flow ;; br <- attr boilup_ratio ;;
  let Bmass_flow := Bm * (br + 1) in
  ret (Vmole_flow, Bmole_flow, Vmass_flow, Bmass_flow).

Definition calculate_opt_velocity (Vmole_flow : R)
    : method DistillationColumn R :=
  mw <- attr molecular_weight ;;
  vd <- attr vapor_density ;;
  area <- attr cross_sectional_area ;;
  v_opt <- expr (truediv (Vmole_flow * mw) (vd * area * 3600)) ;;
  expr (truediv v_opt 0.3048).

Definition calculate_flooding_velocity (Bmass_flow Vmass_flow : R)
    : method DistillationColumn pynum :=
  ratio <- expr (truediv Bmass_flow Vmass_flow) ;;
  vd <- attr vapor_density ;;
  ld <- attr liquid_density ;;
  q <- expr (truediv vd ld) ;;
  root <- expr (math_sqrt q) ;;
  let Flv := ratio * root in
  l1 <- expr (math_log10 Flv) ;;
  l2 <- expr (math_log10 Flv) ;;
  Csbf <- expr (float_pow 10 (- 1.0262 - 0.63513 * l1 - 0.20097 * l2 ^ 2)) ;;
  st <- attr surface_tension ;;
  t <- expr (truediv st 20) ;;
  p <- expr (float_pow t 0.2) ;;
  ld <- attr liquid_density ;;
  vd <- attr vapor_density ;;
  vd' <- attr vapor_density ;;
  d <- expr (truediv (ld - vd) vd') ;;
  s <- expr (math_sqrt d) ;;
  let v_flood := py_mul (py_mul Csbf p) (PyFloat s) in
  ret v_flood.

(** The returned dict, in the order of its literal. *)
Definition simulate : method DistillationColumn (list (string * pynum)) :=
  '(Vmole_flow, Bmole_flow, Vmass_flow, Bmass_flow) <- calculate_flow_rates ;;
  v_opt <- calculate_opt_velocity Vmole_flow ;;
  v_flood <- calculate_flooding_velocity Bmass_flow Vmass_flow ;;
  ratio <- expr (py_truediv (PyFloat v_opt) v_flood) ;;
  let flooding_percentage := py_mul ratio (PyFloat 100) in
  ret [ ("flooding_velocity"%string, v_flood);
        ("operating_velocity"%string, PyFloat v_opt);
        ("flooding_percentage"%string, flooding_percentage) ].

(** [result[key]] *)
Fixpoint getitem (d : list (string * pynum)) (key : string) : option pynum :=
  match d with
  | [] => None
  | (k, v) :: rest => if String.eqb k key then Some v else getitem rest key
  end.

(** A computation that leaves the instance as it found it. *)
Definition readonly {S A : Type} (c : method S A) : Prop :=
  forall self, snd (c self) = self.

(** ** The correlation as the spec writes it *)

Definition log10 (x : R) : R := ln x / ln 10.

(** Flow parameter: [(B / V) * sqrt (vapor_density / liquid_density)]. *)
Definition spec_Flv (self : DistillationColumn) (B V : R) : R :=
  B / V * sqrt (vapor_density self / liquid_density self).

(** Capacity factor: [10^(-1.0262 - 0.63513 log10 Flv - 0.20097 (log10 Flv)^2)]. *)
Definition spec_Csbf (Flv : R) : R :=
  Rpower 10 (- 1.0262 - 0.63513 * log10 Flv - 0.20097 * log10 Flv ^ 2).

(** Density term: [sqrt ((liquid_density - vapor_density) / vapor_density)]. *)
Definition spec_density_term (self : DistillationColumn) : R :=
  sqrt ((liquid_density self - vapor_density self) / vapor_density self).

(** Operating velocity in ft/s, from the attributes. *)
Definition spec_v_opt (self : DistillationColumn) : R :=
  Dmole_flow self * (reflux_ratio self + 1) * molecular_weight self
  / (vapor_density self * cross_sectional_area self * 3600) / 0.3048.

(** Flooding velocity in ft/s, from the attributes. *)
Definition spec_v_flood (self : DistillationColumn) : R :=
  spec_Csbf (spec_Flv self (Bmass_flow self * (boilup_ratio self + 1))
                           (Dmass_flow self * (reflux_ratio self + 1)))
  * Rpower (surface_tension self / 20) 0.2
  * spec_density_term self.


(** ** The columns of the demonstration in [main.py] *)

Definition base_column : DistillationColumn :=
  {| diameter := 1.8;
     Dmole_flow := 103.75;
     Bmole_flow := 86.087;
     Dmass_flow := 5700;
     Bmass_flow := 4300;
     reflux_ratio := 2.25;
     boilup_ratio := 3.77;
     liquid_density := 723.15;
     vapor_density := 2.9;
     molecular_weight := 54.93;
     surface_tension := 25.9;
     cross_sectional_area := 0.85 * (math_pi * 1.8 ^ 2) / 4 |}.

(** The base column run without reflux. *)
Definition no_reflux_column : DistillationColumn :=
  {| diameter := 1.8;
     Dmole_flow := 103.75;
     Bmole_flow := 86.087;
     Dmass_flow := 5700;
     Bmass_flow := 4300;
     reflux_ratio := 0;
     boilup_ratio := 3.77;
     liquid_density := 723.15;
     vapor_density := 2.9;
     molecular_weight := 54.93;
     surface_tension := 25.9;
     cross_sectional_area := 0.85 * (math_pi * 1.8 ^ 2) / 4 |}.

(** The base column with no distillate mass flow. *)
Definition no_distillate_column : DistillationColumn :=
  {| diameter := 1.8;
     Dmole_flow := 103.75;
     Bmole_flow := 86.087;
     Dmass_flow := 0;
     Bmass_flow := 4300;
     reflux_ratio := 2.25;
     boilup_ratio := 3.77;
     liquid_density := 723.15;
     vapor_density := 2.9;
     molecular_weight := 54.93;
     surface_tension := 25.9;
     cross_sectional_area := 0.85 * (math_pi * 1.8 ^ 2) / 4 |}.

(** What [simulate] returns on the base column. *)
Definition base_result : list (string * pynum) :=
  [ ("flooding_velocity"%string, PyFloat (spec_v_flood base_column));
    ("operating_velocity"%string, PyFloat (spec_v_opt base_column));
    ("flooding_percentage"%string,
     PyFloat (spec_v_opt base_column / spec_v_flood base_column * 100)) ].

(** ** Where the velocity methods are defined *)

(** [(surface_tension / 20) ** 0.2], which never raises. *)
Definition tension_power (self : DistillationColumn) : pynum :=
  let t := surface_tension self / 20 in
  if Rlt_dec 0 t then PyFloat (Rpower t 0.2)
  else if Req_dec_T t 0 then PyFloat 0
  else PyComplex (Rpower (- t) 0.2 * cos (0.2 * PI))
                 (Rpower (- t) 0.2 * sin (0.2 * PI)).

(** The product that [calculate_flooding_velocity] returns when no step of
    it raises. *)
Definition flooding_value (self : DistillationColumn) (B V : R) : pynum :=
  py_mul (py_mul (PyFloat (spec_Csbf (spec_Flv self B V))) (tension_power self))
         (PyFloat (spec_density_term self)).

(** The mass flows are non-zero with one sign, and the densities are
    non-zero with one sign, the liquid one at least as far from zero. *)
Definition flooding_domain (self : DistillationColumn) (B V : R) : Prop :=
  0 < B * V /\
  ((0 < vapor_density self /\ vapor_density self <= liquid_density self) \/
   (liquid_density self <= vapor_density self /\ vapor_density self < 0)).

(** A number that [/] refuses as a divisor. *)
Definition num_is_zero (v : pynum) : Prop :=
  match v with
  | PyFloat x => x = 0
  | PyComplex c d => c * c + d * d = 0
  end.

(** The columns on which [simulate] returns a dict. *)
Definition simulate_domain (self : DistillationColumn) : Prop :=
  cross_sectional_area self <> 0 /\
  surface_tension self <> 0 /\
  0 < Bmass_flow self * (boilup_ratio self + 1)
      * (Dmass_flow self * (reflux_ratio self + 1)) /\
  ((0 < vapor_density self /\ vapor_density self < liquid_density self) \/
   (liquid_density self < vapor_density self /\ vapor_density self < 0)).

(** The dict of a run in which nothing raises. *)
Definition simulate_dict (self : DistillationColumn) (ratio : pynum)
    : list (string * pynum) :=
  [ ("flooding_velocity"%string,
     flooding_value self (Bmass_flow self * (boilup_ratio self + 1))
                         (Dmass_flow self * (reflux_ratio self + 1)));
    ("operating_velocity"%string, PyFloat (spec_v_opt self));
    ("flooding_percentage"%string, py_mul ratio (PyFloat 100)) ].

(** The instance with another value in [self.diameter] alone. *)
Definition with_diameter (d : R) (self : DistillationColumn)
    : DistillationColumn :=
  {| diameter := d;
     Dmole_flow := Dmole_flow self;
     Bmole_flow := Bmole_flow self;
     Dmass_flow := Dmass_flow self;
     Bmass_flow := Bmass_flow self;
     reflux_ratio := reflux_ratio self;
     boilup_ratio := boilup_ratio self;
     liquid_density := liquid_density self;
     vapor_density := vapor_density self;
     molecular_weight := molecular_weight self;
     surface_tension := surface_tension self;
     cross_sectional_area := cross_sectional_area self |}.

(** The instance with another surface tension. *)
Definition with_surface_tension (st : R) (self : DistillationColumn)
    : DistillationColumn :=
  {| diameter := diameter self;
     Dmole_flow := Dmole_flow self;
     Bmole_flow := Bmole_flow self;
     Dmass_flow := Dmass_flow self;
     Bmass_flow := Bmass_flow self;
     reflux_ratio := reflux_ratio self;
     boilup_ratio := boilup_ratio self;
     liquid_density := liquid_density self;
     vapor_density := vapor_density self;
     molecular_weight := molecular_weight self;
     surface_tension := st;
     cross_sectional_area := cross_sectional_area self |}.

(** The instance with other densities. *)
Definition with_densities (ld vd : R) (self : DistillationColumn)
    : DistillationColumn :=
  {| diameter := diameter self;
     Dmole_flow := Dmole_flow self;
     Bmole_flow := Bmole_flow self;
     Dmass_flow := Dmass_flow self;
     Bmass_flow := Bmass_flow self;
     reflux_ratio := reflux_ratio self;
     boilup_ratio := boilup_ratio self;
     liquid_density := ld;
     vapor_density := vd;
     molecular_weight := molecular_weight self;
     surface_tension := surface_tension self;
     cross_sectional_area := cross_sectional_area self |}.

(** The instance with another bottoms mass flow. *)
Definition with_Bmass_flow (Bm : R) (self : DistillationColumn)
    : DistillationColumn :=
  {| diameter := diameter self;
     Dmole_flow := Dmole_flow self;
     Bmole_flow := Bmole_flow self;
     Dmass_flow := Dmass_flow self;
     Bmass_flow := Bm;
     reflux_ratio := reflux_ratio self;
     boilup_ratio := boilup_ratio self;
     liquid_density := liquid_density self;
     vapor_density := vapor_density self;
     molecular_weight := molecular_weight self;
     surface_tension := surface_tension self;
     cross_sectional_area := cross_sectional_area self |}.

(** ** The two expressions on binary64 doubles *)





(** * Lemmas *)

(** ** Equations of the two monads *)

Section MethodEquations.
Context {S : Type}.

Lemma bind_attr {A B : Type} (f : S -> A) (k : A -> method S B) (self : S) :
  bind (attr f) k self = k (f self) self.
Proof. reflexivity. Qed.

Lemma bind_expr_ok {A B : Type} (c : outcome A) (a : A)
    (k : A -> method S B) (self : S) :
  c = Ok a -> bind (expr c) k self = k a self.
Proof. intros ->. reflexivity. Qed.

Lemma bind_expr_raise {A B : Type} (c : outcome A) (e : exn)
    (k : A -> method S B) (self : S) :
  c = Raise e -> bind (expr c) k self = (Raise e, self).
Proof. intros ->. reflexivity. Qed.

Lemma bind_ok {A B : Type} (c : method S A) (a : A) (self self' : S)
    (k : A -> method S B) :
  c self = (Ok a, self') -> bind c k self = k a self'.
Proof. intros H. unfold bind, method_monad. rewrite H. reflexivity. Qed.

Lemma bind_raise {A B : Type} (c : method S A) (e : exn) (self self' : S)
    (k : A -> method S B) :
  c self = (Raise e, self') -> bind c k self = (Raise e, self').
Proof. intros H. unfold bind, method_monad. rewrite H. reflexivity. Qed.

(** A successful [bind] splits into its two halves. *)
Lemma bind_inv_ok {A B : Type} (c : method S A) (k : A -> method S B)
    (self self2 : S) (b : B) :
  bind c k self = (Ok b, self2) ->
  exists a self1, c self = (Ok a, self1) /\ k a self1 = (Ok b, self2).
Proof.
  unfold bind, method_monad.
  destruct (c self) as [[a | e] self1]; intros H.
  - exists a, self1. split; [reflexivity | exact H].
  - discriminate H.
Qed.

Lemma readonly_ret {A : Type} (a : A) : readonly (ret a : method S A).
Proof. intros self. reflexivity. Qed.

Lemma readonly_attr {A : Type} (f : S -> A) : readonly (attr f).
Proof. intros self. reflexivity. Qed.

Lemma readonly_expr {A : Type} (c : outcome A) :
  readonly (expr c : method S A).
Proof. intros self. reflexivity. Qed.

Lemma readonly_bind {A B : Type} (c : method S A) (k : A -> method S B) :
  readonly c -> (forall a, readonly (k a)) -> readonly (bind c k).
Proof.
  intros Hc Hk self. unfold bind, method_monad.
  specialize (Hc self).
  destruct (c self) as [[a | e] self1]; simpl in Hc; subst self1.
  - apply Hk.
  - reflexivity.
Qed.

Lemma readonly_inv {A : Type} (c : method S A) (self self' : S)
    (o : outcome A) :
  readonly c -> c self = (o, self') -> self' = self.
Proof. intros H Hc. specialize (H self). rewrite Hc in H. exact H. Qed.

End MethodEquations.

Ltac readonly_tac :=
  repeat first
    [ apply readonly_ret | apply readonly_attr | apply readonly_expr
    | apply readonly_bind; [ | intros ? ]
    | match goal with |- readonly (match ?p with _ => _ end) =>
        destruct p end
    | match goal with |- readonly (let _ := _ in _) => cbv zeta end ].

(** ** The operators where they are defined *)

Lemma truediv_ok (x y : R) : y <> 0 -> truediv x y = Ok (x / y).
Proof. intros H. unfold truediv. destruct (Req_dec_T y 0); [contradiction | reflexivity]. Qed.

Lemma truediv_zero (x y : R) : y = 0 -> truediv x y = Raise ZeroDivisionError.
Proof. intros H. unfold truediv. destruct (Req_dec_T y 0); [reflexivity | contradiction]. Qed.

Lemma math_sqrt_ok (x : R) : 0 <= x -> math_sqrt x = Ok (sqrt x).
Proof. intros H. unfold math_sqrt. destruct (Rlt_dec x 0); [lra | reflexivity]. Qed.

Lemma math_sqrt_neg (x : R) : x < 0 -> math_sqrt x = Raise ValueError.
Proof. intros H. unfold math_sqrt. destruct (Rlt_dec x 0); [reflexivity | lra]. Qed.

Lemma math_log10_ok (x : R) : 0 < x -> math_log10 x = Ok (ln x / ln 10).
Proof. intros H. unfold math_log10. destruct (Rle_dec x 0); [lra | reflexivity]. Qed.

Lemma math_log10_nonpos (x : R) : x <= 0 -> math_log10 x = Raise ValueError.
Proof. intros H. unfold math_log10. destruct (Rle_dec x 0); [reflexivity | lra]. Qed.

Lemma float_pow_pos (x y : R) :
  0 < x -> float_pow x y = Ok (PyFloat (Rpower x y)).
Proof.
  intros Hx. unfold float_pow.
  destruct (Req_dec_T y 0) as [-> | Hy].
  - now rewrite Rpower_O.
  - destruct (Rlt_dec 0 x); [reflexivity | contradiction].
Qed.

Lemma float_pow_zero (y : R) : 0 < y -> float_pow 0 y = Ok (PyFloat 0).
Proof.
  intros Hy. unfold float_pow.
  destruct (Req_dec_T y 0); [lra |].
  destruct (Rlt_dec 0 0); [lra |].
  destruct (Req_dec_T 0 0); [| lra].
  destruct (Rlt_dec y 0); [lra | reflexivity].
Qed.

Lemma frac_part_fifth : frac_part 0.2 <> 0.
Proof.
  intros H. apply fp_nat in H. destruct H as [c Hc].
  assert (H0 : IZR 0 < IZR c) by (rewrite <- Hc; lra).
  assert (H1 : IZR c < IZR 1) by (rewrite <- Hc; lra).
  apply lt_IZR in H0. apply lt_IZR in H1. lia.
Qed.

Lemma float_pow_neg_fifth (x : R) :
  x < 0 ->
  float_pow x 0.2 = Ok (PyComplex (Rpower (- x) 0.2 * cos (0.2 * PI))
                                  (Rpower (- x) 0.2 * sin (0.2 * PI))).
Proof.
  intros Hx. unfold float_pow.
  destruct (Req_dec_T 0.2 0); [lra |].
  destruct (Rlt_dec 0 x); [lra |].
  destruct (Req_dec_T x 0); [lra |].
  destruct (Req_dec_T (frac_part 0.2) 0) as [H | _]; [| reflexivity].
  now apply frac_part_fifth in H.
Qed.

Lemma math_pi_pos : 0 < math_pi.
Proof. unfold math_pi. lra. Qed.

(** Operating velocity: the formula, with nothing raised. *)
Lemma calculate_opt_velocity_run (self : DistillationColumn) (Vmole_flow : R) :
  vapor_density self * cross_sectional_area self * 3600 <> 0 ->
  calculate_opt_velocity Vmole_flow self =
    (Ok (Vmole_flow * molecular_weight self /
           (vapor_density self * cross_sectional_area self * 3600) / 0.3048),
     self).
Proof.
  intros Hden. unfold calculate_opt_velocity.
  rewrite !bind_attr.
  rewrite (bind_expr_ok _ _ _ _ (truediv_ok _ _ Hden)).
  unfold expr. rewrite truediv_ok by lra. reflexivity.
Qed.

Lemma spec_Csbf_pos (Flv : R) : 0 < spec_Csbf Flv.
Proof. unfold spec_Csbf, Rpower. apply exp_pos. Qed.

Lemma spec_Flv_pos (self : DistillationColumn) (B V : R) :
  0 < B -> 0 < V -> 0 < vapor_density self -> 0 < liquid_density self ->
  0 < spec_Flv self B V.
Proof.
  intros HB HV Hvd Hld. unfold spec_Flv.
  apply Rmult_lt_0_compat.
  - now apply Rdiv_lt_0_compat.
  - apply sqrt_lt_R0. now apply Rdiv_lt_0_compat.
Qed.

Lemma spec_density_term_pos (self : DistillationColumn) :
  0 < vapor_density self -> vapor_density self < liquid_density self ->
  0 < spec_density_term self.
Proof.
  intros Hvd Hld. unfold spec_density_term.
  apply sqrt_lt_R0. apply Rdiv_lt_0_compat; lra.
Qed.

(** Flooding velocity: the three factors, with nothing raised, whatever
    number the surface-tension power [p] is. *)
Lemma calculate_flooding_velocity_run
    (self : DistillationColumn) (B V : R) (p : pynum) :
  0 < B -> 0 < V ->
  0 < vapor_density self -> vapor_density self < liquid_density self ->
  float_pow (surface_tension self / 20) 0.2 = Ok p ->
  calculate_flooding_velocity B V self =
    (Ok (py_mul (py_mul (PyFloat (spec_Csbf (spec_Flv self B V))) p)
                (PyFloat (spec_density_term self))),
     self).
Proof.
  intros HB HV Hvd Hld Hp.
  assert (HFlv := spec_Flv_pos self B V HB HV Hvd ltac:(lra)).
  unfold spec_Flv in HFlv.
  assert (Hq : 0 <= vapor_density self / liquid_density self)
    by (apply Rlt_le, Rdiv_lt_0_compat; lra).
  assert (Hd : 0 <= (liquid_density self - vapor_density self)
                    / vapor_density self)
    by (apply Rlt_le, Rdiv_lt_0_compat; lra).
  unfold calculate_flooding_velocity.
  rewrite (bind_expr_ok _ _ _ _ (truediv_ok B V ltac:(lra))).
  rewrite !bind_attr.
  rewrite (bind_expr_ok _ _ _ _
             (truediv_ok (vapor_density self) (liquid_density self) ltac:(lra))).
  rewrite (bind_expr_ok _ _ _ _ (math_sqrt_ok _ Hq)).
  cbv zeta.
  rewrite (bind_expr_ok _ _ _ _ (math_log10_ok _ HFlv)).
  rewrite (bind_expr_ok _ _ _ _ (math_log10_ok _ HFlv)).
  erewrite bind_expr_ok by (apply float_pow_pos; lra).
  rewrite !bind_attr.
  rewrite (bind_expr_ok _ _ _ _
             (truediv_ok (surface_tension self) 20 ltac:(lra))).
  rewrite (bind_expr_ok _ _ _ _ Hp).
  rewrite !bind_attr.
  erewrite bind_expr_ok by (apply truediv_ok; lra).
  rewrite (bind_expr_ok _ _ _ _ (math_sqrt_ok _ Hd)).
  reflexivity.
Qed.

(** The power [(surface_tension / 20) ** 0.2] never raises. *)
Lemma float_pow_fifth_total (x : R) : exists p, float_pow x 0.2 = Ok p.
Proof.
  destruct (Rtotal_order x 0) as [H | [H | H]].
  - eexists. now apply float_pow_neg_fifth.
  - subst x. eexists. apply float_pow_zero. lra.
  - eexists. now apply float_pow_pos.
Qed.

(** Only the ratio of the two mass flows enters the flooding velocity. *)
Lemma truediv_scale (k x y : R) :
  k <> 0 -> truediv (k * x) (k * y) = truediv x y.
Proof.
  intros Hk. unfold truediv.
  destruct (Req_dec_T y 0) as [-> | Hy].
  - destruct (Req_dec_T (k * 0) 0) as [_ | H]; [reflexivity | lra].
  - destruct (Req_dec_T (k * y) 0) as [H | _].
    + apply Rmult_integral in H. tauto.
    + f_equal. now field.
Qed.


(** ** No method writes to the instance *)

Lemma calculate_flow_rates_readonly : readonly calculate_flow_rates.
Proof. unfold calculate_flow_rates. readonly_tac. Qed.

Lemma calculate_opt_velocity_readonly (Vmole_flow : R) :
  readonly (calculate_opt_velocity Vmole_flow).
Proof. unfold calculate_opt_velocity. readonly_tac. Qed.

Lemma calculate_flooding_velocity_readonly (Bmass_flow Vmass_flow : R) :
  readonly (calculate_flooding_velocity Bmass_flow Vmass_flow).
Proof. unfold calculate_flooding_velocity. readonly_tac. Qed.

Lemma simulate_readonly : readonly simulate.
Proof.
  unfold simulate.
  apply readonly_bind; [apply calculate_flow_rates_readonly |].
  intros [[[Vmole Bmole] Vmass] Bmass].
  apply readonly_bind; [apply calculate_opt_velocity_readonly |]. intros v_opt.
  apply readonly_bind; [apply calculate_flooding_velocity_readonly |].
  intros v_flood. readonly_tac.
Qed.

Lemma calculate_flow_rates_run (self : DistillationColumn) :
  calculate_flow_rates self =
    (Ok (Dmole_flow self * (reflux_ratio self + 1),
         Bmole_flow self * (boilup_ratio self + 1),
         Dmass_flow self * (reflux_ratio self + 1),
         Bmass_flow self * (boilup_ratio self + 1)),
     self).
Proof. reflexivity. Qed.

Lemma calculate_opt_velocity_zero_div (self : DistillationColumn) (Vmole_flow : R) :
  vapor_density self * cross_sectional_area self * 3600 = 0 ->
  calculate_opt_velocity Vmole_flow self = (Raise ZeroDivisionError, self).
Proof.
  intros Hden. unfold calculate_opt_velocity.
  rewrite !bind_attr.
  now rewrite (bind_expr_raise _ _ _ _ (truediv_zero _ _ Hden)).
Qed.

Lemma calculate_flooding_velocity_zero_div
    (self : DistillationColumn) (Bmass_flow Vmass_flow : R) :
  Vmass_flow = 0 ->
  calculate_flooding_velocity Bmass_flow Vmass_flow self =
    (Raise ZeroDivisionError, self).
Proof.
  intros HV. unfold calculate_flooding_velocity.
  now rewrite (bind_expr_raise _ _ _ _ (truediv_zero _ _ HV)).
Qed.

Lemma spec_v_flood_pos (self : DistillationColumn) :
  0 < vapor_density self -> vapor_density self < liquid_density self ->
  0 < spec_v_flood self.
Proof.
  intros Hvd Hld. unfold spec_v_flood.
  repeat apply Rmult_lt_0_compat.
  - apply spec_Csbf_pos.
  - unfold Rpower. apply exp_pos.
  - now apply spec_density_term_pos.
Qed.

Lemma simulate_run (self : DistillationColumn) :
  0 < Dmass_flow self * (reflux_ratio self + 1) ->
  0 < Bmass_flow self * (boilup_ratio self + 1) ->
  0 < vapor_density self -> vapor_density self < liquid_density self ->
  cross_sectional_area self <> 0 ->
  0 < surface_tension self ->
  simulate self =
    (Ok [ ("flooding_velocity"%string, PyFloat (spec_v_flood self));
          ("operating_velocity"%string, PyFloat (spec_v_opt self));
          ("flooding_percentage"%string,
           PyFloat (spec_v_opt self / spec_v_flood self * 100)) ],
     self).
Proof.
  intros HV HB Hvd Hld Harea Hst.
  assert (Hfl := spec_v_flood_pos self Hvd Hld).
  assert (Hden : vapor_density self * cross_sectional_area self * 3600 <> 0)
    by (repeat apply Rmult_integral_contrapositive_currified; lra).
  assert (Ht : 0 < surface_tension self / 20) by lra.
  unfold simulate.
  rewrite (bind_ok _ _ _ _ _ (calculate_flow_rates_run self)).
  rewrite (bind_ok _ _ _ _ _ (calculate_opt_velocity_run self _ Hden)).
  rewrite (bind_ok _ _ _ _ _ (calculate_flooding_velocity_run self _ _ _
             HB HV Hvd Hld (float_pow_pos _ 0.2 Ht))).
  cbn [py_mul].
  fold (spec_v_flood self). fold (spec_v_opt self).
  unfold py_truediv.
  rewrite truediv_ok by lra.
  reflexivity.
Qed.

(** The constructor: what it stores. *)
Lemma init_run
    (d Dmole Bmole Dmass Bmass rr br ld vd mw st : R) :
  __init__ d Dmole Bmole Dmass Bmass rr br ld vd mw st =
    Ok {| diameter := d;
          Dmole_flow := Dmole;
          Bmole_flow := Bmole;
          Dmass_flow := Dmass;
          Bmass_flow := Bmass;
          reflux_ratio := rr;
          boilup_ratio := br;
          liquid_density := ld;
          vapor_density := vd;
          molecular_weight := mw;
          surface_tension := st;
          cross_sectional_area := 0.85 * (math_pi * d ^ 2) / 4 |}.
Proof.
  unfold __init__. rewrite truediv_ok by lra. reflexivity.
Qed.




(** ** [math.pi] against the real number [PI] *)




Lemma base_column_init :
  __init__ 1.8 103.75 86.087 5700 4300 2.25 3.77 723.15 2.9 54.93 25.9
  = Ok base_column.
Proof. apply init_run. Qed.

Lemma base_column_area_pos : 0 < cross_sectional_area base_column.
Proof. unfold base_column, cross_sectional_area, math_pi. lra. Qed.


Lemma init_area_pos (d : R) : d <> 0 -> 0 < 0.85 * (math_pi * d ^ 2) / 4.
Proof.
  intros Hd. pose proof math_pi_pos as Hpi.
  assert (0 < d ^ 2) by nra.
  assert (0 < math_pi * d ^ 2) by now apply Rmult_lt_0_compat.
  lra.
Qed.

(** * The properties *)

(** C1.  With positive mass flows [B], [V] and
    [liquid_density > vapor_density > 0], [calculate_flooding_velocity]
    raises nothing and returns
    [Csbf * (surface_tension / 20)^0.2 * sqrt ((ld - vd) / vd)] with
    [Flv = (B / V) * sqrt (vd / ld)] and [Csbf] the capacity-factor curve at
    [Flv], with no conversion after it.  The power is the real power for a
    positive surface tension, [0] for a zero one, and Python's complex
    principal value for a negative one. *)
Theorem calculate_flooding_velocity_formula
    (self : DistillationColumn) (B V : R) :
  0 < B -> 0 < V ->
  0 < vapor_density self -> vapor_density self < liquid_density self ->
  let Csbf := spec_Csbf (spec_Flv self B V) in
  let t := surface_tension self / 20 in
  exists v_flood,
    calculate_flooding_velocity B V self = (Ok v_flood, self) /\
    (0 < surface_tension self ->
       v_flood = PyFloat (Csbf * Rpower t 0.2 * spec_density_term self)) /\
    (surface_tension self = 0 -> v_flood = PyFloat 0) /\
    (surface_tension self < 0 ->
       v_flood =
         PyComplex
           (Csbf * (Rpower (- t) 0.2 * cos (0.2 * PI)) * spec_density_term self)
           (Csbf * (Rpower (- t) 0.2 * sin (0.2 * PI)) * spec_density_term self)).
Proof.
  intros HB HV Hvd Hld Csbf t.
  destruct (float_pow_fifth_total t) as [p Hp].
  exists (py_mul (py_mul (PyFloat Csbf) p) (PyFloat (spec_density_term self))).
  split; [now apply calculate_flooding_velocity_run |].
  repeat split; intros Hst.
  - rewrite float_pow_pos in Hp by (unfold t; lra).
    injection Hp as <-. reflexivity.
  - replace t with 0 in Hp by (unfold t; lra).
    rewrite float_pow_zero in Hp by lra.
    injection Hp as <-. simpl. f_equal. ring.
  - rewrite float_pow_neg_fifth in Hp by (unfold t; lra).
    injection Hp as <-. reflexivity.
Qed.

Lemma calculate_flooding_velocity_formula_witness :
  exists v_flood,
    calculate_flooding_velocity 20511 18525 base_column
      = (Ok v_flood, base_column) /\
    (0 < surface_tension base_column ->
       v_flood =
         PyFloat (spec_Csbf (spec_Flv base_column 20511 18525)
                  * Rpower (surface_tension base_column / 20) 0.2
                  * spec_density_term base_column)) /\
    (surface_tension base_column = 0 -> v_flood = PyFloat 0) /\
    (surface_tension base_column < 0 ->
       v_flood =
         PyComplex
           (spec_Csbf (spec_Flv base_column 20511 18525)
            * (Rpower (- (surface_tension base_column / 20)) 0.2
               * cos (0.2 * PI))
            * spec_density_term base_column)
           (spec_Csbf (spec_Flv base_column 20511 18525)
            * (Rpower (- (surface_tension base_column / 20)) 0.2
               * sin (0.2 * PI))
            * spec_density_term base_column)).
Proof.
  apply (calculate_flooding_velocity_formula base_column 20511 18525);
    unfold base_column, vapor_density, liquid_density; lra.
Defined.

(** C2.  With [vapor_density > 0] and [cross_sectional_area > 0],
    [calculate_opt_velocity] raises nothing and returns the velocity in m/s,
    [Vmole_flow * molecular_weight / (vapor_density * area * 3600)],
    divided by [0.3048]. *)
Theorem calculate_opt_velocity_formula
    (self : DistillationColumn) (Vmole_flow : R) :
  0 < vapor_density self -> 0 < cross_sectional_area self ->
  calculate_opt_velocity Vmole_flow self =
    (Ok (Vmole_flow * molecular_weight self
         / (vapor_density self * cross_sectional_area self * 3600)
         / 0.3048),
     self).
Proof.
  intros Hvd Harea. apply calculate_opt_velocity_run.
  repeat apply Rmult_integral_contrapositive_currified; lra.
Qed.

Lemma calculate_opt_velocity_formula_witness :
  calculate_opt_velocity 337.1875 base_column =
    (Ok (337.1875 * molecular_weight base_column
         / (vapor_density base_column * cross_sectional_area base_column
            * 3600)
         / 0.3048),
     base_column).
Proof.
  apply (calculate_opt_velocity_formula base_column 337.1875).
  - unfold base_column, vapor_density. lra.
  - exact base_column_area_pos.
Defined.

(** C3.  [calculate_flow_rates] returns the four products, in the order
    vapor mole flow, bottoms mole flow, vapor mass flow, bottoms mass flow;
    with a reflux ratio of 0 the vapor mole flow is the distillate mole
    flow itself. *)
Theorem calculate_flow_rates_formula (self : DistillationColumn) :
  calculate_flow_rates self =
    (Ok (Dmole_flow self * (reflux_ratio self + 1),
         Bmole_flow self * (boilup_ratio self + 1),
         Dmass_flow self * (reflux_ratio self + 1),
         Bmass_flow self * (boilup_ratio self + 1)),
     self)
  /\ (reflux_ratio self = 0 ->
      exists Bmole Vmass Bmass,
        calculate_flow_rates self =
          (Ok (Dmole_flow self, Bmole, Vmass, Bmass), self)).
Proof.
  split; [apply calculate_flow_rates_run |].
  intros Hrr. do 3 eexists.
  rewrite calculate_flow_rates_run, Hrr.
  replace (Dmole_flow self * (0 + 1)) with (Dmole_flow self) by ring.
  reflexivity.
Qed.

Lemma calculate_flow_rates_formula_witness :
  exists Bmole Vmass Bmass,
    calculate_flow_rates no_reflux_column =
      (Ok (103.75, Bmole, Vmass, Bmass), no_reflux_column).
Proof.
  apply (proj2 (calculate_flow_rates_formula no_reflux_column)).
  reflexivity.
Defined.

(** C4.  When [simulate] returns, the three entries of its dict are the
    flooding velocity and the operating velocity that the two velocity
    methods compute on the flow rates of the same instance, and
    [flooding_percentage] is their quotient times 100. *)
Theorem simulate_flooding_percentage
    (self self' : DistillationColumn) (result : list (string * pynum)) :
  simulate self = (Ok result, self') ->
  exists Vmole_flow Bmole_flow Vmass_flow Bmass_flow v_opt v_flood ratio,
    calculate_flow_rates self =
      (Ok (Vmole_flow, Bmole_flow, Vmass_flow, Bmass_flow), self) /\
    calculate_opt_velocity Vmole_flow self = (Ok v_opt, self) /\
    calculate_flooding_velocity Bmass_flow Vmass_flow self
      = (Ok v_flood, self) /\
    getitem result "operating_velocity" = Some (PyFloat v_opt) /\
    getitem result "flooding_velocity" = Some v_flood /\
    py_truediv (PyFloat v_opt) v_flood = Ok ratio /\
    getitem result "flooding_percentage" = Some (py_mul ratio (PyFloat 100)) /\
    (forall f, v_flood = PyFloat f ->
       getitem result "flooding_percentage" = Some (PyFloat (v_opt / f * 100))).
Proof.
  intros Hrun. unfold simulate in Hrun.
  apply bind_inv_ok in Hrun.
  destruct Hrun as ([[[Vmole Bmole] Vmass] Bmass] & s1 & Hflows & Hrun).
  pose proof (readonly_inv _ _ _ _ calculate_flow_rates_readonly Hflows).
  subst s1.
  apply bind_inv_ok in Hrun. destruct Hrun as (v_opt & s2 & Hopt & Hrun).
  pose proof (readonly_inv _ _ _ _ (calculate_opt_velocity_readonly _) Hopt).
  subst s2.
  apply bind_inv_ok in Hrun. destruct Hrun as (v_flood & s3 & Hflood & Hrun).
  pose proof (readonly_inv _ _ _ _
                (calculate_flooding_velocity_readonly _ _) Hflood).
  subst s3.
  apply bind_inv_ok in Hrun. destruct Hrun as (ratio & s4 & Hratio & Hrun).
  unfold expr in Hratio. injection Hratio as Hratio <-.
  injection Hrun as <- <-.
  exists Vmole, Bmole, Vmass, Bmass, v_opt, v_flood, ratio.
  repeat split; try assumption.
  intros f ->. simpl. unfold py_truediv, truediv in Hratio.
  destruct (Req_dec_T f 0); [discriminate |].
  simpl in Hratio. injection Hratio as <-. reflexivity.
Qed.

Lemma simulate_flooding_percentage_witness :
  exists Vmole_flow Bmole_flow Vmass_flow Bmass_flow v_opt v_flood ratio,
    calculate_flow_rates base_column =
      (Ok (Vmole_flow, Bmole_flow, Vmass_flow, Bmass_flow), base_column) /\
    calculate_opt_velocity Vmole_flow base_column = (Ok v_opt, base_column) /\
    calculate_flooding_velocity Bmass_flow Vmass_flow base_column
      = (Ok v_flood, base_column) /\
    getitem base_result "operating_velocity" = Some (PyFloat v_opt) /\
    getitem base_result "flooding_velocity" = Some v_flood /\
    py_truediv (PyFloat v_opt) v_flood = Ok ratio /\
    getitem base_result "flooding_percentage"
      = Some (py_mul ratio (PyFloat 100)) /\
    (forall f, v_flood = PyFloat f ->
       getitem base_result "flooding_percentage"
         = Some (PyFloat (v_opt / f * 100))).
Proof.
  apply (simulate_flooding_percentage base_column base_column base_result).
  unfold base_result.
  apply simulate_run;
    try (unfold base_column, Dmass_flow, Bmass_flow, reflux_ratio, boilup_ratio,
           vapor_density, liquid_density, surface_tension; lra).
  apply Rgt_not_eq, base_column_area_pos.
Defined.







(** C7, as the spec has it, fails at diameter 0 with the other arguments of
    the base column: the constructor raises nothing and returns an instance
    whose area is 0. *)
Lemma init_accepts_zero_diameter :
  exists c,
    __init__ 0 103.75 86.087 5700 4300 2.25 3.77 723.15 2.9 54.93 25.9 = Ok c /\
    diameter c = 0 /\ cross_sectional_area c = 0.
Proof.
  eexists. split; [apply init_run |]. simpl. split; [reflexivity | lra].
Qed.

(** C7, amended.  The constructor validates nothing: whatever the eleven
    numbers are, a non-positive diameter or density and
    [liquid_density <= vapor_density] included, it raises nothing and returns
    an instance that stores them as given, with
    [cross_sectional_area = 0.85 * (math.pi * diameter^2) / 4].  With
    [diameter = 0] the area is 0 and it is [simulate] that raises, with
    [ZeroDivisionError]. *)
Theorem init_validates_nothing
    (d Dmole Bmole Dmass Bmass rr br ld vd mw st : R) :
  exists c,
    __init__ d Dmole Bmole Dmass Bmass rr br ld vd mw st = Ok c /\
    diameter c = d /\ Dmole_flow c = Dmole /\ Bmole_flow c = Bmole /\
    Dmass_flow c = Dmass /\ Bmass_flow c = Bmass /\
    reflux_ratio c = rr /\ boilup_ratio c = br /\
    liquid_density c = ld /\ vapor_density c = vd /\
    molecular_weight c = mw /\ surface_tension c = st /\
    cross_sectional_area c = 0.85 * (math_pi * d ^ 2) / 4 /\
    (d = 0 ->
     cross_sectional_area c = 0 /\
     simulate c = (Raise ZeroDivisionError, c)).
Proof.
  eexists. split; [apply init_run |]. simpl.
  repeat (split; [reflexivity |]).
  intros ->. split; [lra |].
  unfold simulate.
  rewrite (bind_ok _ _ _ _ _ (calculate_flow_rates_run _)).
  erewrite bind_raise; [reflexivity |].
  apply calculate_opt_velocity_zero_div. simpl. lra.
Qed.

Lemma init_validates_nothing_witness :
  exists c,
    __init__ 0 103.75 86.087 5700 4300 2.25 3.77 723.15 2.9 54.93 25.9 = Ok c /\
    cross_sectional_area c = 0 /\
    simulate c = (Raise ZeroDivisionError, c).
Proof.
  destruct (init_validates_nothing
              0 103.75 86.087 5700 4300 2.25 3.77 723.15 2.9 54.93 25.9)
    as (c & Hc & _ & _ & _ & _ & _ & _ & _ & _ & _ & _ & _ & _ & Hzero).
  exists c. split; [exact Hc |]. apply Hzero. reflexivity.
Defined.

(** C8.  When the derived vapor mass flow
    [Dmass_flow * (reflux_ratio + 1)] is zero, [simulate] raises
    [ZeroDivisionError] and returns no dict. *)
Theorem simulate_zero_vapor_mass_flow (self : DistillationColumn) :
  Dmass_flow self * (reflux_ratio self + 1) = 0 ->
  simulate self = (Raise ZeroDivisionError, self).
Proof.
  intros HV. unfold simulate.
  rewrite (bind_ok _ _ _ _ _ (calculate_flow_rates_run self)).
  destruct (Req_dec_T
              (vapor_density self * cross_sectional_area self * 3600) 0)
    as [Hden | Hden].
  - erewrite bind_raise; [reflexivity |].
    now apply calculate_opt_velocity_zero_div.
  - rewrite (bind_ok _ _ _ _ _ (calculate_opt_velocity_run self _ Hden)).
    erewrite bind_raise; [reflexivity |].
    now apply calculate_flooding_velocity_zero_div.
Qed.

Lemma simulate_zero_vapor_mass_flow_witness :
  simulate no_distillate_column = (Raise ZeroDivisionError, no_distillate_column).
Proof.
  apply (simulate_zero_vapor_mass_flow no_distillate_column).
  unfold no_distillate_column, Dmass_flow, reflux_ratio. lra.
Defined.






(** C10.  Each of the four methods returns the instance it was given, every
    attribute as before the call; a second [simulate] on the same instance
    therefore gives the result of the first. *)
Theorem methods_leave_instance_unchanged
    (self : DistillationColumn) (Vmole_flow Bmass_flow Vmass_flow : R) :
  snd (calculate_flow_rates self) = self /\
  snd (calculate_opt_velocity Vmole_flow self) = self /\
  snd (calculate_flooding_velocity Bmass_flow Vmass_flow self) = self /\
  snd (simulate self) = self /\
  fst (simulate (snd (simulate self))) = fst (simulate self).
Proof.
  split; [apply calculate_flow_rates_readonly |].
  split; [apply calculate_opt_velocity_readonly |].
  split; [apply calculate_flooding_velocity_readonly |].
  split; [apply simulate_readonly |].
  now rewrite simulate_readonly.
Qed.

(** * Further properties: where the methods raise and how they scale *)

(** ** Signs of quotients and of square roots *)

Lemma same_sign_div (x y : R) : 0 < x * y <-> y <> 0 /\ 0 < x / y.
Proof.
  split.
  - intros H. assert (Hy : y <> 0) by (intros ->; lra). split; [exact Hy |].
    replace (x / y) with (x * y * (/ y * / y)) by (field; exact Hy).
    apply Rmult_lt_0_compat; [exact H |].
    assert (/ y <> 0) by now apply Rinv_neq_0_compat. nra.
  - intros [Hy H].
    replace (x * y) with (x / y * (y * y)) by (field; exact Hy).
    apply Rmult_lt_0_compat; [exact H | nra].
Qed.

Lemma nonneg_div (x y : R) : y <> 0 -> (0 <= x / y <-> 0 <= x * y).
Proof.
  intros Hy.
  assert (Hi : 0 < / y * / y)
    by (assert (/ y <> 0) by (now apply Rinv_neq_0_compat); nra).
  split; intros H.
  - replace (x * y) with (x / y * (y * y)) by (field; exact Hy). nra.
  - replace (x / y) with (x * y * (/ y * / y)) by (field; exact Hy).
    apply Rmult_le_pos; lra.
Qed.

Lemma sqrt_pos_iff (x : R) : 0 <= x -> (0 < sqrt x <-> 0 < x).
Proof.
  intros Hx. split.
  - intros H. destruct Hx as [Hx | <-]; [exact Hx |]. rewrite sqrt_0 in H. lra.
  - apply sqrt_lt_R0.
Qed.

Lemma float_pow_tension (self : DistillationColumn) :
  float_pow (surface_tension self / 20) 0.2 = Ok (tension_power self).
Proof.
  unfold tension_power. cbv zeta.
  destruct (Rlt_dec 0 (surface_tension self / 20)) as [H | H].
  - now apply float_pow_pos.
  - destruct (Req_dec_T (surface_tension self / 20) 0) as [-> | H0].
    + apply float_pow_zero. lra.
    + apply float_pow_neg_fifth. lra.
Qed.

(** ** The steps of [calculate_flooding_velocity], in the order in which
    they can raise *)

Lemma flooding_raises_at_density_ratio (self : DistillationColumn) (B V : R) :
  V <> 0 -> liquid_density self = 0 ->
  calculate_flooding_velocity B V self = (Raise ZeroDivisionError, self).
Proof.
  intros HV Hld. unfold calculate_flooding_velocity.
  rewrite (bind_expr_ok _ _ _ _ (truediv_ok B V HV)).
  rewrite !bind_attr.
  now rewrite (bind_expr_raise _ _ _ _ (truediv_zero _ _ Hld)).
Qed.

Lemma flooding_raises_at_first_sqrt (self : DistillationColumn) (B V : R) :
  V <> 0 -> liquid_density self <> 0 ->
  vapor_density self / liquid_density self < 0 ->
  calculate_flooding_velocity B V self = (Raise ValueError, self).
Proof.
  intros HV Hld Hq. unfold calculate_flooding_velocity.
  rewrite (bind_expr_ok _ _ _ _ (truediv_ok B V HV)).
  rewrite !bind_attr.
  rewrite (bind_expr_ok _ _ _ _ (truediv_ok _ _ Hld)).
  now rewrite (bind_expr_raise _ _ _ _ (math_sqrt_neg _ Hq)).
Qed.

Lemma flooding_raises_at_log10 (self : DistillationColumn) (B V : R) :
  V <> 0 -> liquid_density self <> 0 ->
  0 <= vapor_density self / liquid_density self ->
  B / V * sqrt (vapor_density self / liquid_density self) <= 0 ->
  calculate_flooding_velocity B V self = (Raise ValueError, self).
Proof.
  intros HV Hld Hq HFlv. unfold calculate_flooding_velocity.
  rewrite (bind_expr_ok _ _ _ _ (truediv_ok B V HV)).
  rewrite !bind_attr.
  rewrite (bind_expr_ok _ _ _ _ (truediv_ok _ _ Hld)).
  rewrite (bind_expr_ok _ _ _ _ (math_sqrt_ok _ Hq)).
  cbv zeta.
  now rewrite (bind_expr_raise _ _ _ _ (math_log10_nonpos _ HFlv)).
Qed.

Lemma flooding_after_log10 (self : DistillationColumn) (B V : R) :
  V <> 0 -> liquid_density self <> 0 ->
  0 <= vapor_density self / liquid_density self ->
  0 < B / V * sqrt (vapor_density self / liquid_density self) ->
  calculate_flooding_velocity B V self =
    (d <- expr (truediv (liquid_density self - vapor_density self)
                        (vapor_density self)) ;;
     s <- expr (math_sqrt d) ;;
     ret (py_mul (py_mul (PyFloat (spec_Csbf (spec_Flv self B V)))
                         (tension_power self))
                 (PyFloat s))) self.
Proof.
  intros HV Hld Hq HFlv. unfold calculate_flooding_velocity.
  rewrite (bind_expr_ok _ _ _ _ (truediv_ok B V HV)).
  rewrite !bind_attr.
  rewrite (bind_expr_ok _ _ _ _ (truediv_ok _ _ Hld)).
  rewrite (bind_expr_ok _ _ _ _ (math_sqrt_ok _ Hq)).
  cbv zeta.
  rewrite (bind_expr_ok _ _ _ _ (math_log10_ok _ HFlv)).
  rewrite (bind_expr_ok _ _ _ _ (math_log10_ok _ HFlv)).
  erewrite bind_expr_ok by (apply float_pow_pos; lra).
  rewrite !bind_attr.
  rewrite (bind_expr_ok _ _ _ _
             (truediv_ok (surface_tension self) 20 ltac:(lra))).
  rewrite (bind_expr_ok _ _ _ _ (float_pow_tension self)).
  rewrite !bind_attr.
  reflexivity.
Qed.

Lemma flooding_domain_signs (self : DistillationColumn) (B V : R) :
  flooding_domain self B V ->
  V <> 0 /\ liquid_density self <> 0 /\ vapor_density self <> 0 /\
  0 < B / V /\
  0 < vapor_density self / liquid_density self /\
  0 <= (liquid_density self - vapor_density self) / vapor_density self.
Proof.
  intros [HBV Hd].
  apply same_sign_div in HBV. destruct HBV as [HV HBV].
  assert (Hvl : 0 < vapor_density self * liquid_density self)
    by (destruct Hd as [[? ?] | [? ?]]; nra).
  pose proof Hvl as Hq. apply same_sign_div in Hq. destruct Hq as [Hld Hq].
  assert (Hvd : vapor_density self <> 0) by (destruct Hd as [[? ?] | [? ?]]; lra).
  repeat split; try assumption.
  apply nonneg_div; [exact Hvd |].
  destruct Hd as [[? ?] | [? ?]]; nra.
Qed.

(** Every call ends in exactly one of three ways. *)
Lemma flooding_outcome (self : DistillationColumn) (B V : R) :
  ((V = 0 \/ liquid_density self = 0) /\
   calculate_flooding_velocity B V self = (Raise ZeroDivisionError, self)) \/
  (V <> 0 /\ liquid_density self <> 0 /\ ~ flooding_domain self B V /\
   calculate_flooding_velocity B V self = (Raise ValueError, self)) \/
  (flooding_domain self B V /\
   calculate_flooding_velocity B V self
     = (Ok (flooding_value self B V), self)).
Proof.
  destruct (Req_dec_T V 0) as [HV | HV].
  { left. split; [now left | now apply calculate_flooding_velocity_zero_div]. }
  destruct (Req_dec_T (liquid_density self) 0) as [Hld | Hld].
  { left. split; [now right | now apply flooding_raises_at_density_ratio]. }
  right.
  destruct (Rlt_dec (vapor_density self / liquid_density self) 0) as [Hq | Hq].
  { left. repeat split; try assumption.
    - intros Hdom. apply flooding_domain_signs in Hdom. lra.
    - now apply flooding_raises_at_first_sqrt. }
  apply Rnot_lt_le in Hq.
  destruct (Rle_dec (B / V * sqrt (vapor_density self / liquid_density self)) 0)
    as [HFlv | HFlv].
  { left. repeat split; try assumption.
    - intros Hdom. apply flooding_domain_signs in Hdom.
      destruct Hdom as (_ & _ & _ & HBV & Hq' & _).
      apply sqrt_lt_R0 in Hq'.
      pose proof (Rmult_lt_0_compat _ _ HBV Hq'). lra.
    - now apply flooding_raises_at_log10. }
  apply Rnot_le_lt in HFlv.
  assert (Hs : 0 < sqrt (vapor_density self / liquid_density self)).
  { pose proof (sqrt_pos (vapor_density self / liquid_density self)) as Hp.
    destruct Hp as [Hp | Hp]; [exact Hp |]. rewrite <- Hp in HFlv. lra. }
  assert (HBV : 0 < B / V) by nra.
  apply (proj1 (sqrt_pos_iff _ Hq)) in Hs.
  assert (Hvl : 0 < vapor_density self * liquid_density self)
    by (apply same_sign_div; now split).
  assert (Hvd : vapor_density self <> 0) by (intros H0; rewrite H0 in Hvl; lra).
  rewrite (flooding_after_log10 self B V HV Hld Hq HFlv).
  rewrite (bind_expr_ok _ _ _ _ (truediv_ok _ _ Hvd)).
  destruct (Rlt_dec ((liquid_density self - vapor_density self)
                     / vapor_density self) 0) as [Hd | Hd].
  - left. repeat split; try assumption.
    + intros Hdom. apply flooding_domain_signs in Hdom. lra.
    + now rewrite (bind_expr_raise _ _ _ _ (math_sqrt_neg _ Hd)).
  - apply Rnot_lt_le in Hd. right. split.
    + split; [apply same_sign_div; now split |].
      apply (proj1 (nonneg_div _ _ Hvd)) in Hd.
      destruct (Rlt_dec 0 (vapor_density self)); [left | right]; split; nra.
    + now rewrite (bind_expr_ok _ _ _ _ (math_sqrt_ok _ Hd)).
Qed.

(** X2.  [calculate_flooding_velocity] raises [ZeroDivisionError] whenever
    the vapor mass flow or the liquid density is zero: the first at
    [Bmass_flow / Vmass_flow], the second at
    [vapor_density / liquid_density]. *)
Theorem calculate_flooding_velocity_zero_division
    (self : DistillationColumn) (B V : R) :
  V = 0 \/ liquid_density self = 0 ->
  calculate_flooding_velocity B V self = (Raise ZeroDivisionError, self).
Proof.
  intros Hz.
  destruct (Req_dec_T V 0) as [HV | HV].
  - now apply calculate_flooding_velocity_zero_div.
  - destruct Hz as [? | Hld]; [contradiction |].
    now apply flooding_raises_at_density_ratio.
Qed.

Lemma calculate_flooding_velocity_zero_division_witness :
  calculate_flooding_velocity 20511 18525 (with_densities 0 2.9 base_column)
  = (Raise ZeroDivisionError, with_densities 0 2.9 base_column).
Proof.
  apply (calculate_flooding_velocity_zero_division
           (with_densities 0 2.9 base_column) 20511 18525).
  right. reflexivity.
Defined.

(** ** The divisor of the percentage *)

Lemma py_truediv_zero (x : R) (v : pynum) :
  num_is_zero v -> py_truediv (PyFloat x) v = Raise ZeroDivisionError.
Proof.
  destruct v as [y | c d]; simpl; intros H.
  - now rewrite truediv_zero.
  - destruct (Req_dec_T (c * c + d * d) 0); [reflexivity | contradiction].
Qed.

Lemma py_truediv_nonzero (x : R) (v : pynum) :
  ~ num_is_zero v -> exists q, py_truediv (PyFloat x) v = Ok q.
Proof.
  destruct v as [y | c d]; simpl; intros H.
  - rewrite truediv_ok by exact H. eexists. reflexivity.
  - destruct (Req_dec_T (c * c + d * d) 0); [contradiction |].
    eexists. reflexivity.
Qed.

Lemma Rpower_pos (x y : R) : 0 < Rpower x y.
Proof. unfold Rpower. apply exp_pos. Qed.

Lemma flooding_value_zero_iff (self : DistillationColumn) (B V : R) :
  num_is_zero (flooding_value self B V) <->
  surface_tension self = 0 \/ spec_density_term self = 0.
Proof.
  unfold flooding_value, tension_power. cbv zeta.
  pose proof (spec_Csbf_pos (spec_Flv self B V)) as HC.
  set (C := spec_Csbf (spec_Flv self B V)) in *.
  set (D := spec_density_term self).
  destruct (Rlt_dec 0 (surface_tension self / 20)) as [Ht | Ht].
  - pose proof (Rpower_pos (surface_tension self / 20) 0.2) as HK.
    simpl. split.
    + intros H. right.
      apply Rmult_integral in H. destruct H as [H | H]; [| exact H].
      apply Rmult_integral in H. lra.
    + intros [H | H]; [lra | rewrite H; ring].
  - destruct (Req_dec_T (surface_tension self / 20) 0) as [Ht0 | Ht0].
    + simpl. split; [intros _; left; lra | intros _; ring].
    + pose proof (Rpower_pos (- (surface_tension self / 20)) 0.2) as HK.
      set (K := Rpower (- (surface_tension self / 20)) 0.2) in *.
      simpl.
      pose proof (sin2_cos2 (0.2 * PI)) as Hsc. unfold Rsqr in Hsc.
      set (sn := sin (0.2 * PI)) in *. set (cs := cos (0.2 * PI)) in *.
      assert (Heq : C * (K * cs) * D * (C * (K * cs) * D)
                    + C * (K * sn) * D * (C * (K * sn) * D)
                    = (C * K * D) * (C * K * D) * (sn * sn + cs * cs)) by ring.
      rewrite Heq, Hsc, Rmult_1_r.
      split.
      * intros H. right.
        apply Rmult_integral in H.
        assert (HCKD : C * K * D = 0) by (destruct H; exact H).
        apply Rmult_integral in HCKD. destruct HCKD as [H' | H']; [| exact H'].
        apply Rmult_integral in H'. lra.
      * intros [H | H]; [lra | rewrite H; ring].
Qed.

Lemma spec_density_term_zero_iff (self : DistillationColumn) :
  vapor_density self <> 0 ->
  0 <= (liquid_density self - vapor_density self) / vapor_density self ->
  (spec_density_term self = 0 <-> liquid_density self = vapor_density self).
Proof.
  intros Hvd Hd. unfold spec_density_term. split.
  - intros H. apply sqrt_eq_0 in H; [| exact Hd].
    assert (liquid_density self - vapor_density self = 0); [| lra].
    replace (liquid_density self - vapor_density self)
      with ((liquid_density self - vapor_density self) / vapor_density self
            * vapor_density self) by (field; exact Hvd).
    rewrite H. ring.
  - intros ->. unfold Rminus. rewrite Rplus_opp_r.
    unfold Rdiv. rewrite Rmult_0_l. apply sqrt_0.
Qed.

(** ** [simulate], step by step *)

Lemma simulate_after_opt_velocity (self : DistillationColumn) :
  vapor_density self * cross_sectional_area self * 3600 <> 0 ->
  simulate self =
    (v_flood <- calculate_flooding_velocity
                  (Bmass_flow self * (boilup_ratio self + 1))
                  (Dmass_flow self * (reflux_ratio self + 1)) ;;
     ratio <- expr (py_truediv (PyFloat (spec_v_opt self)) v_flood) ;;
     ret [ ("flooding_velocity"%string, v_flood);
           ("operating_velocity"%string, PyFloat (spec_v_opt self));
           ("flooding_percentage"%string, py_mul ratio (PyFloat 100)) ]) self.
Proof.
  intros Hden. unfold simulate.
  rewrite (bind_ok _ _ _ _ _ (calculate_flow_rates_run self)).
  rewrite (bind_ok _ _ _ _ _ (calculate_opt_velocity_run self _ Hden)).
  reflexivity.
Qed.

Lemma simulate_raises_at_opt_velocity (self : DistillationColumn) :
  vapor_density self * cross_sectional_area self * 3600 = 0 ->
  simulate self = (Raise ZeroDivisionError, self).
Proof.
  intros Hden. unfold simulate.
  rewrite (bind_ok _ _ _ _ _ (calculate_flow_rates_run self)).
  erewrite bind_raise; [reflexivity |].
  now apply calculate_opt_velocity_zero_div.
Qed.

Lemma opt_velocity_divisor (self : DistillationColumn) :
  vapor_density self * cross_sectional_area self * 3600 = 0 <->
  vapor_density self = 0 \/ cross_sectional_area self = 0.
Proof.
  split.
  - intros H. apply Rmult_integral in H. destruct H as [H | H]; [| lra].
    now apply Rmult_integral in H.
  - intros [H | H]; rewrite H; ring.
Qed.

(** Every run of [simulate] ends in exactly one of three ways. *)
Lemma simulate_outcome (self : DistillationColumn) :
  let B := Bmass_flow self * (boilup_ratio self + 1) in
  let V := Dmass_flow self * (reflux_ratio self + 1) in
  ((vapor_density self = 0 \/ cross_sectional_area self = 0 \/
    V = 0 \/ liquid_density self = 0 \/
    (flooding_domain self B V /\
     (surface_tension self = 0 \/
      liquid_density self = vapor_density self))) /\
   simulate self = (Raise ZeroDivisionError, self)) \/
  ((vapor_density self <> 0 /\ cross_sectional_area self <> 0 /\
    V <> 0 /\ liquid_density self <> 0 /\ ~ flooding_domain self B V) /\
   simulate self = (Raise ValueError, self)) \/
  (simulate_domain self /\
   exists ratio,
     py_truediv (PyFloat (spec_v_opt self)) (flooding_value self B V)
       = Ok ratio /\
     simulate self = (Ok (simulate_dict self ratio), self)).
Proof.
  intros B V.
  destruct (Req_dec_T (vapor_density self * cross_sectional_area self * 3600) 0)
    as [Hden | Hden].
  { left. split; [| now apply simulate_raises_at_opt_velocity].
    apply opt_velocity_divisor in Hden. tauto. }
  assert (Hvd : vapor_density self <> 0)
    by (intros H; apply Hden, opt_velocity_divisor; now left).
  assert (Harea : cross_sectional_area self <> 0)
    by (intros H; apply Hden, opt_velocity_divisor; now right).
  rewrite (simulate_after_opt_velocity self Hden). fold B V.
  destruct (flooding_outcome self B V)
    as [[Hz H] | [(HV & Hld & Hn & H) | [Hdom H]]].
  - left. split; [tauto |]. now rewrite (bind_raise _ _ _ _ _ H).
  - right. left. split; [tauto |]. now rewrite (bind_raise _ _ _ _ _ H).
  - rewrite (bind_ok _ _ _ _ _ H).
    pose proof (flooding_domain_signs _ _ _ Hdom) as (HV & Hld & _ & _ & _ & Hd).
    pose proof (flooding_value_zero_iff self B V) as Hzero.
    rewrite (spec_density_term_zero_iff self Hvd Hd) in Hzero.
    destruct (Req_dec_T (surface_tension self) 0) as [Hst | Hst].
    { left. split; [tauto |].
      rewrite (bind_expr_raise _ _ _ _
                 (py_truediv_zero _ _ (proj2 Hzero (or_introl Hst)))).
      reflexivity. }
    destruct (Req_dec_T (liquid_density self) (vapor_density self))
      as [Heq | Hneq].
    { left. split; [tauto |].
      rewrite (bind_expr_raise _ _ _ _
                 (py_truediv_zero _ _ (proj2 Hzero (or_intror Heq)))).
      reflexivity. }
    right. right.
    assert (Hnz : ~ num_is_zero (flooding_value self B V)) by tauto.
    destruct (py_truediv_nonzero (spec_v_opt self) _ Hnz) as [ratio Hratio].
    split.
    + destruct Hdom as [HBV Hdens].
      repeat split; try assumption.
      destruct Hdens as [[? ?] | [? ?]]; [left | right]; split; lra.
    + exists ratio. split; [exact Hratio |].
      rewrite (bind_expr_ok _ _ _ _ Hratio). reflexivity.
Qed.

Lemma simulate_domain_flooding_domain (self : DistillationColumn) :
  simulate_domain self ->
  flooding_domain self (Bmass_flow self * (boilup_ratio self + 1))
                       (Dmass_flow self * (reflux_ratio self + 1)) /\
  vapor_density self <> 0 /\ liquid_density self <> 0 /\
  liquid_density self <> vapor_density self /\
  Dmass_flow self * (reflux_ratio self + 1) <> 0.
Proof.
  intros (Harea & Hst & HBV & Hd).
  split; [split; [exact HBV |] |].
  - destruct Hd as [[? ?] | [? ?]]; [left | right]; split; lra.
  - repeat split; try (destruct Hd as [[? ?] | [? ?]]; lra).
    intros H0. rewrite H0 in HBV. lra.
Qed.

(** The three ways in which [simulate] ends exclude one another. *)
Lemma simulate_conditions_exclusive (self : DistillationColumn) :
  let B := Bmass_flow self * (boilup_ratio self + 1) in
  let V := Dmass_flow self * (reflux_ratio self + 1) in
  let zero_division :=
    vapor_density self = 0 \/ cross_sectional_area self = 0 \/
    V = 0 \/ liquid_density self = 0 \/
    (flooding_domain self B V /\
     (surface_tension self = 0 \/
      liquid_density self = vapor_density self)) in
  let value_error :=
    vapor_density self <> 0 /\ cross_sectional_area self <> 0 /\
    V <> 0 /\ liquid_density self <> 0 /\ ~ flooding_domain self B V in
  ~ (zero_division /\ value_error) /\
  ~ (zero_division /\ simulate_domain self) /\
  ~ (value_error /\ simulate_domain self).
Proof.
  cbv zeta. repeat split.
  - intros [Hz Hv]. tauto.
  - intros [Hz Hdom].
    pose proof (simulate_domain_flooding_domain _ Hdom)
      as (_ & Hvd & Hld & Hne & HV).
    destruct Hdom as (Harea & Hst & _).
    destruct Hz as [? | [? | [? | [? | [_ [? | ?]]]]]]; contradiction.
  - intros [Hv Hdom]. apply simulate_domain_flooding_domain in Hdom. tauto.
Qed.

Lemma flooding_domain_run (self : DistillationColumn) (B V : R) :
  flooding_domain self B V ->
  calculate_flooding_velocity B V self = (Ok (flooding_value self B V), self).
Proof.
  intros Hdom.
  pose proof (flooding_domain_signs _ _ _ Hdom) as (HV & Hld & _).
  destruct (flooding_outcome self B V)
    as [[[? | ?] _] | [(_ & _ & Hn & _) | [_ H]]];
    try contradiction.
  exact H.
Qed.

Lemma simulate_raises_zero_division (self : DistillationColumn) :
  vapor_density self = 0 \/ cross_sectional_area self = 0 \/
  Dmass_flow self * (reflux_ratio self + 1) = 0 \/
  liquid_density self = 0 \/
  (flooding_domain self (Bmass_flow self * (boilup_ratio self + 1))
                        (Dmass_flow self * (reflux_ratio self + 1)) /\
   (surface_tension self = 0 \/
    liquid_density self = vapor_density self)) ->
  simulate self = (Raise ZeroDivisionError, self).
Proof.
  intros Hz.
  pose proof (simulate_conditions_exclusive self) as (Hzv & Hzd & _).
  destruct (simulate_outcome self) as [[_ H] | [[Hv _] | [Hdom _]]].
  - exact H.
  - exfalso. exact (Hzv (conj Hz Hv)).
  - exfalso. exact (Hzd (conj Hz Hdom)).
Qed.

Lemma simulate_raises_value_error (self : DistillationColumn) :
  vapor_density self <> 0 -> cross_sectional_area self <> 0 ->
  Dmass_flow self * (reflux_ratio self + 1) <> 0 ->
  liquid_density self <> 0 ->
  ~ flooding_domain self (Bmass_flow self * (boilup_ratio self + 1))
                         (Dmass_flow self * (reflux_ratio self + 1)) ->
  simulate self = (Raise ValueError, self).
Proof.
  intros Hvd Harea HV Hld Hn.
  pose proof (simulate_conditions_exclusive self) as (Hzv & _ & Hvdom).
  destruct (simulate_outcome self) as [[Hz _] | [[_ H] | [Hdom _]]].
  - exfalso. apply Hzv. split; [exact Hz | tauto].
  - exact H.
  - exfalso. apply Hvdom. split; [tauto | exact Hdom].
Qed.

(** X5.  [simulate] raises [ZeroDivisionError] whenever the vapor density,
    the area, the derived vapor mass flow or the liquid density is zero. *)
Theorem simulate_zero_division (self : DistillationColumn) :
  vapor_density self = 0 \/ cross_sectional_area self = 0 \/
  Dmass_flow self * (reflux_ratio self + 1) = 0 \/
  liquid_density self = 0 ->
  simulate self = (Raise ZeroDivisionError, self).
Proof.
  intros Hz. apply simulate_raises_zero_division. tauto.
Qed.

Lemma simulate_zero_division_witness :
  simulate (with_densities 0 2.9 base_column)
  = (Raise ZeroDivisionError, with_densities 0 2.9 base_column).
Proof.
  apply (simulate_zero_division (with_densities 0 2.9 base_column)).
  right. right. right. reflexivity.
Defined.

(** X6.  A liquid lighter than the vapor ([0 < liquid < vapor]) on a column
    that is otherwise in order makes [simulate] raise [ValueError], from the
    square root of a negative density term. *)
Theorem simulate_liquid_lighter_than_vapor (self : DistillationColumn) :
  0 < liquid_density self -> liquid_density self < vapor_density self ->
  cross_sectional_area self <> 0 ->
  0 < Bmass_flow self * (boilup_ratio self + 1) ->
  0 < Dmass_flow self * (reflux_ratio self + 1) ->
  simulate self = (Raise ValueError, self).
Proof.
  intros Hld Hlt Harea HB HV.
  apply simulate_raises_value_error; try lra; try assumption.
  intros [_ [[? ?] | [? ?]]]; lra.
Qed.

Lemma simulate_liquid_lighter_than_vapor_witness :
  simulate (with_densities 2.9 723.15 base_column)
  = (Raise ValueError, with_densities 2.9 723.15 base_column).
Proof.
  apply (simulate_liquid_lighter_than_vapor
           (with_densities 2.9 723.15 base_column)); simpl; try lra.
  apply Rgt_not_eq, base_column_area_pos.
Defined.

(** X7.  A zero derived bottoms mass flow on a column that is otherwise in
    order makes [simulate] raise [ValueError], from [math.log10(0)]; a zero
    derived vapor mass flow raises [ZeroDivisionError] instead. *)
Theorem simulate_zero_bottoms_mass_flow (self : DistillationColumn) :
  Bmass_flow self * (boilup_ratio self + 1) = 0 ->
  Dmass_flow self * (reflux_ratio self + 1) <> 0 ->
  vapor_density self <> 0 -> liquid_density self <> 0 ->
  cross_sectional_area self <> 0 ->
  simulate self = (Raise ValueError, self).
Proof.
  intros HB HV Hvd Hld Harea.
  apply simulate_raises_value_error; try assumption.
  intros [HBV _]. rewrite HB in HBV. lra.
Qed.

Lemma simulate_zero_bottoms_mass_flow_witness :
  simulate (with_Bmass_flow 0 base_column)
  = (Raise ValueError, with_Bmass_flow 0 base_column).
Proof.
  apply (simulate_zero_bottoms_mass_flow (with_Bmass_flow 0 base_column));
    simpl; try lra.
  apply Rgt_not_eq, base_column_area_pos.
Defined.

(** X8.  With a zero surface tension, or with equal densities, and the rest
    of the column in order, [calculate_flooding_velocity] raises nothing and
    returns zero, and it is the percentage in [simulate] that raises
    [ZeroDivisionError]. *)
Theorem zero_flooding_velocity (self : DistillationColumn) :
  let B := Bmass_flow self * (boilup_ratio self + 1) in
  let V := Dmass_flow self * (reflux_ratio self + 1) in
  flooding_domain self B V ->
  surface_tension self = 0 \/ liquid_density self = vapor_density self ->
  exists v_flood,
    calculate_flooding_velocity B V self = (Ok v_flood, self) /\
    num_is_zero v_flood /\
    simulate self = (Raise ZeroDivisionError, self).
Proof.
  intros B V Hdom Hz.
  exists (flooding_value self B V).
  split; [now apply flooding_domain_run |].
  pose proof (flooding_domain_signs _ _ _ Hdom) as (_ & _ & Hvd & _ & _ & Hd).
  split.
  - apply flooding_value_zero_iff.
    rewrite (spec_density_term_zero_iff self Hvd Hd). exact Hz.
  - apply simulate_raises_zero_division. fold B V. tauto.
Qed.

Lemma zero_flooding_velocity_witness :
  exists v_flood,
    calculate_flooding_velocity
      (Bmass_flow (with_surface_tension 0 base_column)
       * (boilup_ratio (with_surface_tension 0 base_column) + 1))
      (Dmass_flow (with_surface_tension 0 base_column)
       * (reflux_ratio (with_surface_tension 0 base_column) + 1))
      (with_surface_tension 0 base_column)
      = (Ok v_flood, with_surface_tension 0 base_column) /\
    num_is_zero v_flood /\
    simulate (with_surface_tension 0 base_column)
      = (Raise ZeroDivisionError, with_surface_tension 0 base_column).
Proof.
  apply (zero_flooding_velocity (with_surface_tension 0 base_column)).
  - unfold flooding_domain. simpl. split; [lra | left; lra].
  - left. reflexivity.
Defined.




(** ** Size of the flooding velocity *)

Lemma calculate_flooding_velocity_float
    (self : DistillationColumn) (B V : R) :
  0 < B -> 0 < V ->
  0 < vapor_density self -> vapor_density self < liquid_density self ->
  0 < surface_tension self ->
  calculate_flooding_velocity B V self =
    (Ok (PyFloat (spec_Csbf (spec_Flv self B V)
                  * Rpower (surface_tension self / 20) 0.2
                  * spec_density_term self)),
     self).
Proof.
  intros HB HV Hvd Hld Hst.
  assert (Ht : 0 < surface_tension self / 20) by lra.
  rewrite (calculate_flooding_velocity_run self B V _ HB HV Hvd Hld
             (float_pow_pos _ 0.2 Ht)).
  reflexivity.
Qed.

Lemma sqrt_10_lower : 3.16 < sqrt 10.
Proof.
  rewrite <- (sqrt_square 3.16) by lra.
  apply sqrt_lt_1; lra.
Qed.

(** The exponent of the capacity factor is a parabola in [log10 Flv] that
    stays below [-1/2]. *)
Lemma spec_Csbf_upper (Flv : R) : spec_Csbf Flv < 0.317.
Proof.
  unfold spec_Csbf. set (L := log10 Flv).
  apply Rle_lt_trans with (Rpower 10 (- / 2)).
  - apply Rle_Rpower; [lra |].
    assert (H : 0 <= (L + 1.58) ^ 2) by apply pow2_ge_0.
    nra.
  - rewrite Rpower_Ropp, Rpower_sqrt by lra.
    pose proof sqrt_10_lower as Hs.
    apply Rlt_le_trans with (/ 3.16); [| lra].
    apply Rinv_lt_contravar; [| exact Hs].
    apply Rmult_lt_0_compat; lra.
Qed.

(** X10.  Whatever the mass flows, the capacity factor stays below 0.317,
    so on a column with [0 < vapor < liquid] and a positive surface tension
    the flooding velocity is a float, not negative and below
    [0.317 * (surface_tension / 20)^0.2 * sqrt ((liquid - vapor) / vapor)]. *)
Theorem flooding_velocity_below_bound
    (self : DistillationColumn) (B V : R) :
  0 < B -> 0 < V ->
  0 < vapor_density self -> vapor_density self < liquid_density self ->
  0 < surface_tension self ->
  exists v,
    calculate_flooding_velocity B V self = (Ok (PyFloat v), self) /\
    0 <= v /\
    v < 0.317 * Rpower (surface_tension self / 20) 0.2
        * spec_density_term self.
Proof.
  intros HB HV Hvd Hld Hst.
  eexists. split; [now apply calculate_flooding_velocity_float |].
  pose proof (spec_Csbf_pos (spec_Flv self B V)) as HC.
  pose proof (spec_Csbf_upper (spec_Flv self B V)) as HCu.
  pose proof (Rpower_pos (surface_tension self / 20) 0.2) as HK.
  pose proof (spec_density_term_pos self Hvd Hld) as HD.
  split.
  - apply Rlt_le. repeat apply Rmult_lt_0_compat; assumption.
  - apply Rmult_lt_compat_r; [exact HD |].
    apply Rmult_lt_compat_r; [exact HK | exact HCu].
Qed.

Lemma flooding_velocity_below_bound_witness :
  exists v,
    calculate_flooding_velocity 20511 18525 base_column
      = (Ok (PyFloat v), base_column) /\
    0 <= v /\
    v < 0.317 * Rpower (surface_tension base_column / 20) 0.2
        * spec_density_term base_column.
Proof.
  apply (flooding_velocity_below_bound base_column 20511 18525);
    unfold base_column, vapor_density, liquid_density, surface_tension; lra.
Defined.

(** X11.  The flooding velocity grows with the surface tension: on a column
    with positive mass flows and [0 < vapor < liquid], a larger positive
    surface tension gives a strictly larger flooding velocity. *)
Theorem flooding_velocity_increases_with_surface_tension
    (self : DistillationColumn) (st1 st2 B V : R) :
  0 < B -> 0 < V ->
  0 < vapor_density self -> vapor_density self < liquid_density self ->
  0 < st1 -> st1 < st2 ->
  exists v1 v2,
    calculate_flooding_velocity B V (with_surface_tension st1 self)
      = (Ok (PyFloat v1), with_surface_tension st1 self) /\
    calculate_flooding_velocity B V (with_surface_tension st2 self)
      = (Ok (PyFloat v2), with_surface_tension st2 self) /\
    0 < v1 /\ v1 < v2.
Proof.
  intros HB HV Hvd Hld Hst1 Hst12.
  do 2 eexists.
  split; [apply calculate_flooding_velocity_float; simpl; lra |].
  split; [apply calculate_flooding_velocity_float; simpl; lra |].
  cbn [surface_tension with_surface_tension].
  change (spec_Flv (with_surface_tension st1 self) B V)
    with (spec_Flv self B V).
  change (spec_Flv (with_surface_tension st2 self) B V)
    with (spec_Flv self B V).
  change (spec_density_term (with_surface_tension st1 self))
    with (spec_density_term self).
  change (spec_density_term (with_surface_tension st2 self))
    with (spec_density_term self).
  pose proof (spec_Csbf_pos (spec_Flv self B V)) as HC.
  pose proof (spec_density_term_pos self Hvd Hld) as HD.
  pose proof (Rpower_pos (st1 / 20) 0.2) as HK.
  assert (HK12 : Rpower (st1 / 20) 0.2 < Rpower (st2 / 20) 0.2)
    by (apply Rlt_Rpower_l; lra).
  split.
  - repeat apply Rmult_lt_0_compat; assumption.
  - apply Rmult_lt_compat_r; [exact HD |].
    apply Rmult_lt_compat_l; assumption.
Qed.

Lemma flooding_velocity_increases_with_surface_tension_witness :
  exists v1 v2,
    calculate_flooding_velocity 20511 18525
        (with_surface_tension 25.9 base_column)
      = (Ok (PyFloat v1), with_surface_tension 25.9 base_column) /\
    calculate_flooding_velocity 20511 18525
        (with_surface_tension 29.6 base_column)
      = (Ok (PyFloat v2), with_surface_tension 29.6 base_column) /\
    0 < v1 /\ v1 < v2.
Proof.
  apply (flooding_velocity_increases_with_surface_tension
           base_column 25.9 29.6 20511 18525);
    unfold base_column, vapor_density, liquid_density; lra.
Defined.

(** ** The diameter *)

(** X12.  On a valid column, multiplying the diameter by [k <> 0] leaves the
    flooding velocity as it was and divides the operating velocity, and with
    it the flooding percentage, by [k^2]. *)
Theorem diameter_scales_operating_velocity
    (d Dmole Bmole Dmass Bmass rr br ld vd mw st k : R) :
  k <> 0 -> d <> 0 -> 0 < Dmass -> 0 < Bmass -> 0 <= rr -> 0 <= br ->
  0 < vd -> vd < ld -> 0 < st ->
  exists c1 c2 v_flood v_opt,
    __init__ d Dmole Bmole Dmass Bmass rr br ld vd mw st = Ok c1 /\
    __init__ (k * d) Dmole Bmole Dmass Bmass rr br ld vd mw st = Ok c2 /\
    cross_sectional_area c2 = k ^ 2 * cross_sectional_area c1 /\
    simulate c1 =
      (Ok [ ("flooding_velocity"%string, PyFloat v_flood);
            ("operating_velocity"%string, PyFloat v_opt);
            ("flooding_percentage"%string,
             PyFloat (v_opt / v_flood * 100)) ],
       c1) /\
    simulate c2 =
      (Ok [ ("flooding_velocity"%string, PyFloat v_flood);
            ("operating_velocity"%string, PyFloat (v_opt / k ^ 2));
            ("flooding_percentage"%string,
             PyFloat (v_opt / v_flood * 100 / k ^ 2)) ],
       c2).
Proof.
  intros Hk Hd HDmass HBmass Hrr Hbr Hvd Hld Hst.
  pose proof (init_area_pos d Hd) as Harea1.
  assert (Hkd : k * d <> 0) by now apply Rmult_integral_contrapositive_currified.
  pose proof (init_area_pos (k * d) Hkd) as Harea2.
  pose proof (init_run d Dmole Bmole Dmass Bmass rr br ld vd mw st) as Hc1.
  pose proof (init_run (k * d) Dmole Bmole Dmass Bmass rr br ld vd mw st)
    as Hc2.
  set (c1 := {| diameter := d |}) in Hc1.
  set (c2 := {| diameter := k * d |}) in Hc2.
  assert (HV : 0 < Dmass * (rr + 1)) by (apply Rmult_lt_0_compat; lra).
  assert (HB : 0 < Bmass * (br + 1)) by (apply Rmult_lt_0_compat; lra).
  assert (Hfl : 0 < spec_v_flood c1) by (apply spec_v_flood_pos; simpl; lra).
  assert (Hk2 : k ^ 2 <> 0) by now apply pow_nonzero.
  exists c1, c2, (spec_v_flood c1), (spec_v_opt c1).
  split; [exact Hc1 |]. split; [exact Hc2 |].
  split; [simpl; field |].
  split; [apply simulate_run; simpl; lra |].
  rewrite simulate_run by (simpl; lra).
  change (spec_v_flood c2) with (spec_v_flood c1).
  assert (Hopt : spec_v_opt c2 = spec_v_opt c1 / k ^ 2).
  { unfold spec_v_opt. simpl. unfold math_pi. field.
    repeat split; try assumption; lra. }
  rewrite Hopt. do 5 f_equal. f_equal. f_equal. field.
  repeat split; try assumption; lra.
Qed.

Lemma diameter_scales_operating_velocity_witness :
  exists c1 c2 v_flood v_opt,
    __init__ 1.8 103.75 86.087 5700 4300 2.25 3.77 723.15 2.9 54.93 25.9
      = Ok c1 /\
    __init__ (2 * 1.8) 103.75 86.087 5700 4300 2.25 3.77 723.15 2.9 54.93 25.9
      = Ok c2 /\
    cross_sectional_area c2 = 2 ^ 2 * cross_sectional_area c1 /\
    simulate c1 =
      (Ok [ ("flooding_velocity"%string, PyFloat v_flood);
            ("operating_velocity"%string, PyFloat v_opt);
            ("flooding_percentage"%string,
             PyFloat (v_opt / v_flood * 100)) ],
       c1) /\
    simulate c2 =
      (Ok [ ("flooding_velocity"%string, PyFloat v_flood);
            ("operating_velocity"%string, PyFloat (v_opt / 2 ^ 2));
            ("flooding_percentage"%string,
             PyFloat (v_opt / v_flood * 100 / 2 ^ 2)) ],
       c2).
Proof.
  apply (diameter_scales_operating_velocity
           1.8 103.75 86.087 5700 4300 2.25 3.77 723.15 2.9 54.93 25.9 2);
    lra.
Defined.

Lemma simulate_ignores_diameter (d : R) (self : DistillationColumn) :
  fst (simulate (with_diameter d self)) = fst (simulate self).
Proof.
  pose proof (simulate_conditions_exclusive self) as (Hzv & Hzd & Hvd).
  destruct (simulate_outcome self)
    as [[Hz H] | [[Hv H] | [Hdom (ratio & Hratio & H)]]];
  destruct (simulate_outcome (with_diameter d self))
    as [[Hz' H'] | [[Hv' H'] | [Hdom' (ratio' & Hratio' & H')]]];
  rewrite H, H'; cbn [fst]; try reflexivity.
  - exfalso. exact (Hzv (conj Hz Hv')).
  - exfalso. exact (Hzd (conj Hz Hdom')).
  - exfalso. exact (Hzv (conj Hz' Hv)).
  - exfalso. exact (Hvd (conj Hv Hdom')).
  - exfalso. exact (Hzd (conj Hz' Hdom)).
  - exfalso. exact (Hvd (conj Hv' Hdom)).
  - pose proof (eq_trans (eq_sym Hratio') Hratio) as Heq.
    injection Heq as ->. reflexivity.
Qed.

(** X13.  No method reads [self.diameter] after construction: an instance
    whose diameter attribute is changed, the stored area left as it is,
    gives the same flow rates, the same velocities and the same [simulate]
    outcome. *)
Theorem methods_ignore_diameter_attribute
    (d : R) (self : DistillationColumn) (Vmole_flow Bmass_flow Vmass_flow : R) :
  fst (calculate_flow_rates (with_diameter d self))
    = fst (calculate_flow_rates self) /\
  fst (calculate_opt_velocity Vmole_flow (with_diameter d self))
    = fst (calculate_opt_velocity Vmole_flow self) /\
  fst (calculate_flooding_velocity Bmass_flow Vmass_flow (with_diameter d self))
    = fst (calculate_flooding_velocity Bmass_flow Vmass_flow self) /\
  fst (simulate (with_diameter d self)) = fst (simulate self).
Proof.
  split; [reflexivity |]. split; [| split].
  - destruct (Req_dec_T
                (vapor_density self * cross_sectional_area self * 3600) 0)
      as [Hden | Hden].
    + rewrite (calculate_opt_velocity_zero_div self _ Hden).
      now rewrite (calculate_opt_velocity_zero_div (with_diameter d self)).
    + rewrite (calculate_opt_velocity_run self _ Hden).
      now rewrite (calculate_opt_velocity_run (with_diameter d self)).
  - pose proof (flooding_domain_signs self Bmass_flow Vmass_flow) as Hsigns.
    destruct (flooding_outcome self Bmass_flow Vmass_flow)
      as [[Hz H] | [(HV & Hld & Hn & H) | [Hdom H]]];
    destruct (flooding_outcome (with_diameter d self) Bmass_flow Vmass_flow)
      as [[Hz' H'] | [(HV' & Hld' & Hn' & H') | [Hdom' H']]];
    rewrite H, H'; cbn [fst]; try reflexivity; exfalso;
    cbn [with_diameter liquid_density] in *;
    try (change (flooding_domain self Bmass_flow Vmass_flow) in Hdom');
    try (change (~ flooding_domain self Bmass_flow Vmass_flow) in Hn');
    tauto.
  - apply simulate_ignores_diameter.
Qed.

(** X14.  A negative diameter is taken like its absolute value: the
    constructor stores the same area for [- d] as for [d], and [simulate]
    then ends the same way on both instances. *)
Theorem negative_diameter_same_outcome
    (d Dmole Bmole Dmass Bmass rr br ld vd mw st : R) :
  exists c1 c2,
    __init__ d Dmole Bmole Dmass Bmass rr br ld vd mw st = Ok c1 /\
    __init__ (- d) Dmole Bmole Dmass Bmass rr br ld vd mw st = Ok c2 /\
    cross_sectional_area c2 = cross_sectional_area c1 /\
    fst (simulate c2) = fst (simulate c1).
Proof.
  pose proof (init_run d Dmole Bmole Dmass Bmass rr br ld vd mw st) as Hc1.
  pose proof (init_run (- d) Dmole Bmole Dmass Bmass rr br ld vd mw st) as Hc2.
  replace ((- d) ^ 2) with (d ^ 2) in Hc2 by ring.
  set (c1 := {| diameter := d |}) in Hc1.
  exists c1, (with_diameter (- d) c1).
  split; [exact Hc1 |]. split; [exact Hc2 |]. split; [reflexivity |].
  apply simulate_ignores_diameter.
Qed.

(** ** The operating velocity *)

(** X15.  [calculate_opt_velocity] raises [ZeroDivisionError] whenever the
    vapor density or the area is zero, and it never raises [ValueError]. *)
Theorem calculate_opt_velocity_zero_division
    (self : DistillationColumn) (Vmole_flow : R) :
  (vapor_density self = 0 \/ cross_sectional_area self = 0 ->
   calculate_opt_velocity Vmole_flow self = (Raise ZeroDivisionError, self)) /\
  calculate_opt_velocity Vmole_flow self <> (Raise ValueError, self).
Proof.
  destruct (Req_dec_T (vapor_density self * cross_sectional_area self * 3600) 0)
    as [Hden | Hden].
  - rewrite (calculate_opt_velocity_zero_div self _ Hden).
    split; [reflexivity | discriminate].
  - rewrite (calculate_opt_velocity_run self _ Hden).
    split; [| discriminate].
    intros H. exfalso. apply Hden, opt_velocity_divisor, H.
Qed.

Lemma calculate_opt_velocity_zero_division_witness :
  calculate_opt_velocity 337.1875 (with_densities 723.15 0 base_column)
  = (Raise ZeroDivisionError, with_densities 723.15 0 base_column).
Proof.
  apply (proj1 (calculate_opt_velocity_zero_division
                  (with_densities 723.15 0 base_column) 337.1875)).
  left. reflexivity.
Defined.

(** X16.  Where it is defined, the operating velocity is linear in the vapor
    mole flow: the velocity of [a * V1 + b * V2] is [a] times that of [V1]
    plus [b] times that of [V2], and a zero flow gives a zero velocity. *)
Theorem calculate_opt_velocity_linear
    (self : DistillationColumn) (a b V1 V2 : R) :
  vapor_density self <> 0 -> cross_sectional_area self <> 0 ->
  exists v1 v2,
    calculate_opt_velocity V1 self = (Ok v1, self) /\
    calculate_opt_velocity V2 self = (Ok v2, self) /\
    calculate_opt_velocity (a * V1 + b * V2) self
      = (Ok (a * v1 + b * v2), self) /\
    calculate_opt_velocity 0 self = (Ok 0, self).
Proof.
  intros Hvd Harea.
  assert (Hden : vapor_density self * cross_sectional_area self * 3600 <> 0)
    by (intros H; apply opt_velocity_divisor in H; tauto).
  do 2 eexists. rewrite !(calculate_opt_velocity_run self _ Hden).
  split; [reflexivity |]. split; [reflexivity |].
  split; do 2 f_equal; field; repeat split; try assumption; lra.
Qed.

Lemma calculate_opt_velocity_linear_witness :
  exists v1 v2,
    calculate_opt_velocity 103.75 base_column = (Ok v1, base_column) /\
    calculate_opt_velocity 233.4375 base_column = (Ok v2, base_column) /\
    calculate_opt_velocity (1 * 103.75 + 1 * 233.4375) base_column
      = (Ok (1 * v1 + 1 * v2), base_column) /\
    calculate_opt_velocity 0 base_column = (Ok 0, base_column).
Proof.
  apply (calculate_opt_velocity_linear base_column 1 1 103.75 233.4375).
  - unfold base_column, vapor_density. lra.
  - apply Rgt_not_eq, base_column_area_pos.
Defined.

(** ** The returned dict *)

(** X17.  A dict returned by [simulate] has the three keys
    [flooding_velocity], [operating_velocity], [flooding_percentage] in this
    order and no other: any other key is missing.  Its operating velocity is
    a float and its flooding velocity is never zero. *)
Theorem simulate_result_shape
    (self self' : DistillationColumn) (result : list (string * pynum)) :
  simulate self = (Ok result, self') ->
  map fst result
    = [ "flooding_velocity"%string; "operating_velocity"%string;
        "flooding_percentage"%string ] /\
  (exists v, getitem result "flooding_velocity" = Some v /\ ~ num_is_zero v) /\
  (exists x, getitem result "operating_velocity" = Some (PyFloat x)) /\
  (exists p, getitem result "flooding_percentage" = Some p) /\
  (forall key : string,
     key <> "flooding_velocity"%string ->
     key <> "operating_velocity"%string ->
     key <> "flooding_percentage"%string ->
     getitem result key = None).
Proof.
  intros Hrun.
  destruct (simulate_outcome self)
    as [[_ H] | [[_ H] | [_ (ratio & Hratio & H)]]];
    rewrite H in Hrun; try discriminate.
  injection Hrun as <- <-. unfold simulate_dict.
  split; [reflexivity |]. split; [| split; [| split]].
  - eexists. split; [reflexivity |].
    intros Hz. rewrite (py_truediv_zero _ _ Hz) in Hratio. discriminate.
  - eexists. reflexivity.
  - eexists. reflexivity.
  - intros key H1 H2 H3. cbn [getitem].
    apply not_eq_sym, String.eqb_neq in H1, H2, H3.
    now rewrite H1, H2, H3.
Qed.

Lemma simulate_result_shape_witness :
  map fst base_result
    = [ "flooding_velocity"%string; "operating_velocity"%string;
        "flooding_percentage"%string ] /\
  (exists v, getitem base_result "flooding_velocity" = Some v
             /\ ~ num_is_zero v) /\
  (exists x, getitem base_result "operating_velocity" = Some (PyFloat x)) /\
  (exists p, getitem base_result "flooding_percentage" = Some p) /\
  (forall key : string,
     key <> "flooding_velocity"%string ->
     key <> "operating_velocity"%string ->
     key <> "flooding_percentage"%string ->
     getitem base_result key = None).
Proof.
  apply (simulate_result_shape base_column base_column base_result).
  unfold base_result.
  apply simulate_run;
    try (unfold base_column, Dmass_flow, Bmass_flow, reflux_ratio, boilup_ratio,
           vapor_density, liquid_density, surface_tension; lra).
  apply Rgt_not_eq, base_column_area_pos.
Defined.

(** X18.  In a dict returned by [simulate] with a positive float as flooding
    velocity, the operating velocity and the percentage are floats, and the
    percentage is above 100 exactly when the operating velocity is above the
    flooding velocity. *)
Theorem flooding_percentage_above_100
    (self self' : DistillationColumn) (result : list (string * pynum))
    (v_flood : R) :
  simulate self = (Ok result, self') ->
  getitem result "flooding_velocity" = Some (PyFloat v_flood) ->
  0 < v_flood ->
  exists v_opt pct,
    getitem result "operating_velocity" = Some (PyFloat v_opt) /\
    getitem result "flooding_percentage" = Some (PyFloat pct) /\
    (100 < pct <-> v_flood < v_opt).
Proof.
  intros Hrun Hget Hfl.
  destruct (simulate_outcome self)
    as [[_ H] | [[_ H] | [_ (ratio & Hratio & H)]]];
    rewrite H in Hrun; try discriminate.
  injection Hrun as <- <-. unfold simulate_dict in *.
  cbn [getitem String.eqb Ascii.eqb Bool.eqb] in Hget.
  injection Hget as Hval. rewrite Hval in Hratio.
  unfold py_truediv in Hratio. rewrite truediv_ok in Hratio by lra.
  injection Hratio as <-.
  exists (spec_v_opt self), (spec_v_opt self / v_flood * 100).
  split; [reflexivity |]. split; [reflexivity |].
  split; intros H0.
  - assert (H1 : 1 < spec_v_opt self / v_flood) by lra.
    apply (Rmult_lt_compat_r v_flood) in H1; [| exact Hfl].
    unfold Rdiv in H1. rewrite Rmult_assoc, Rinv_l in H1 by lra. lra.
  - assert (1 < spec_v_opt self / v_flood); [| lra].
    apply (Rmult_lt_reg_r v_flood); [exact Hfl |].
    unfold Rdiv. rewrite Rmult_assoc, Rinv_l by lra. lra.
Qed.

Lemma flooding_percentage_above_100_witness :
  exists v_opt pct,
    getitem base_result "operating_velocity" = Some (PyFloat v_opt) /\
    getitem base_result "flooding_percentage" = Some (PyFloat pct) /\
    (100 < pct <-> spec_v_flood base_column < v_opt).
Proof.
  apply (flooding_percentage_above_100 base_column base_column base_result
           (spec_v_flood base_column)).
  - unfold base_result.
    apply simulate_run;
      try (unfold base_column, Dmass_flow, Bmass_flow, reflux_ratio,
             boilup_ratio, vapor_density, liquid_density, surface_tension;
           lra).
    apply Rgt_not_eq, base_column_area_pos.
  - reflexivity.
  - apply spec_v_flood_pos;
      unfold base_column, vapor_density, liquid_density; lra.
Defined.

(** ** Densities and area *)




Lemma fst_bind_expr {S A B : Type} (c : outcome A) (k : A -> method S B)
    (self : S) :
  fst (bind (expr c) k self)
  = match c with Ok a => fst (k a self) | Raise e => Raise e end.
Proof. destruct c; reflexivity. Qed.

Ltac same_step k :=
  rewrite ?bind_attr;
  cbn [with_densities liquid_density vapor_density surface_tension];
  rewrite <- ?(Rmult_minus_distr_l k);
  rewrite ?truediv_scale by assumption;
  rewrite !fst_bind_expr;
  match goal with
  | |- match ?c with Ok _ => _ | Raise _ => _ end = _ =>
      destruct c; [cbv beta iota zeta | reflexivity]
  end.

(** X21.  Only the ratio of the two densities enters the flooding velocity:
    multiplying both by the same [k <> 0] leaves the outcome of
    [calculate_flooding_velocity] as it was, number or exception. *)
Theorem flooding_velocity_density_scale_invariant
    (self : DistillationColumn) (k B V : R) :
  k <> 0 ->
  fst (calculate_flooding_velocity B V
         (with_densities (k * liquid_density self) (k * vapor_density self)
                         self))
  = fst (calculate_flooding_velocity B V self).
Proof.
  intros Hk. unfold calculate_flooding_velocity.
  repeat same_step k. reflexivity.
Qed.

Lemma flooding_velocity_density_scale_invariant_witness :
  fst (calculate_flooding_velocity 20511 18525
         (with_densities (2 * liquid_density base_column)
                         (2 * vapor_density base_column) base_column))
  = fst (calculate_flooding_velocity 20511 18525 base_column).
Proof.
  apply (flooding_velocity_density_scale_invariant base_column 2 20511 18525).
  lra.
Defined.

(** ** The liquid load *)

Lemma ln_10_pos : 0 < ln 10.
Proof. rewrite <- ln_1. apply ln_increasing; lra. Qed.

Lemma log10_increasing (x y : R) : 0 < x -> x < y -> log10 x < log10 y.
Proof.
  intros Hx Hxy. unfold log10, Rdiv.
  apply Rmult_lt_compat_r.
  - apply Rinv_0_lt_compat, ln_10_pos.
  - now apply ln_increasing.
Qed.

(** [10^(-1.58) < 0.03], from [0.03^50 * 10^79 > 1]. *)
Lemma log10_three_hundredths : - 1.58 < log10 0.03.
Proof.
  pose proof ln_10_pos as H10.
  assert (Hprod : 0 < ln (0.03 ^ 50 * 10 ^ 79))
    by (rewrite <- ln_1; apply ln_increasing; lra).
  rewrite ln_mult in Hprod by (apply pow_lt; lra).
  rewrite !ln_pow in Hprod by lra.
  replace (INR 50) with 50 in Hprod by (simpl; lra).
  replace (INR 79) with 79 in Hprod by (simpl; lra).
  unfold log10.
  apply (Rmult_lt_reg_r (ln 10)); [exact H10 |].
  unfold Rdiv. rewrite Rmult_assoc, Rinv_l by lra. lra.
Qed.

(** From [log10 Flv = -1.58] on, the capacity factor falls as [Flv] rises. *)
Lemma spec_Csbf_decreasing (Flv1 Flv2 : R) :
  0.03 <= Flv1 -> Flv1 < Flv2 -> spec_Csbf Flv2 < spec_Csbf Flv1.
Proof.
  intros H1 H12. unfold spec_Csbf.
  assert (HL1 : - 1.58 < log10 Flv1).
  { destruct H1 as [H1 | <-]; [| exact log10_three_hundredths].
    apply Rlt_trans with (log10 0.03); [exact log10_three_hundredths |].
    apply log10_increasing; lra. }
  assert (HL12 : log10 Flv1 < log10 Flv2)
    by (apply log10_increasing; lra).
  set (L1 := log10 Flv1) in *. set (L2 := log10 Flv2) in *.
  apply Rpower_lt; [lra |].
  assert (0 < (L2 - L1) * (0.63513 + 0.20097 * (L1 + L2)))
    by (apply Rmult_lt_0_compat; lra).
  nra.
Qed.

(** X22.  From a flow parameter of 0.03 upwards a larger liquid load lowers
    the flooding velocity: with the vapor mass flow, densities and positive
    surface tension fixed, raising the bottoms mass flow from [B1] to
    [B2 > B1] gives a strictly smaller flooding velocity whenever
    [Flv >= 0.03] at [B1]. *)
Theorem flooding_velocity_decreases_with_liquid_load
    (self : DistillationColumn) (B1 B2 V : R) :
  0 < B1 -> B1 < B2 -> 0 < V ->
  0 < vapor_density self -> vapor_density self < liquid_density self ->
  0 < surface_tension self ->
  0.03 <= spec_Flv self B1 V ->
  exists v1 v2,
    calculate_flooding_velocity B1 V self = (Ok (PyFloat v1), self) /\
    calculate_flooding_velocity B2 V self = (Ok (PyFloat v2), self) /\
    0 < v2 /\ v2 < v1.
Proof.
  intros HB1 HB12 HV Hvd Hld Hst HFlv.
  do 2 eexists.
  split; [apply calculate_flooding_velocity_float; assumption || lra |].
  split; [apply calculate_flooding_velocity_float; assumption || lra |].
  pose proof (Rpower_pos (surface_tension self / 20) 0.2) as HK.
  pose proof (spec_density_term_pos self Hvd Hld) as HD.
  pose proof (spec_Csbf_pos (spec_Flv self B2 V)) as HC2.
  assert (HFlv12 : spec_Flv self B1 V < spec_Flv self B2 V).
  { unfold spec_Flv. apply Rmult_lt_compat_r.
    - apply sqrt_lt_R0. apply Rdiv_lt_0_compat; lra.
    - unfold Rdiv. apply Rmult_lt_compat_r; [| exact HB12].
      now apply Rinv_0_lt_compat. }
  pose proof (spec_Csbf_decreasing _ _ HFlv HFlv12) as HC.
  split.
  - repeat apply Rmult_lt_0_compat; assumption.
  - apply Rmult_lt_compat_r; [exact HD |].
    apply Rmult_lt_compat_r; [exact HK | exact HC].
Qed.

Lemma base_column_Flv_lower : 0.03 <= spec_Flv base_column 20511 18525.
Proof.
  unfold spec_Flv, base_column, vapor_density, liquid_density.
  assert (Hs : 0.06 <= sqrt (2.9 / 723.15)).
  { rewrite <- (sqrt_square 0.06) by lra. apply sqrt_le_1; lra. }
  lra.
Qed.

Lemma flooding_velocity_decreases_with_liquid_load_witness :
  exists v1 v2,
    calculate_flooding_velocity 20511 18525 base_column
      = (Ok (PyFloat v1), base_column) /\
    calculate_flooding_velocity 20554 18525 base_column
      = (Ok (PyFloat v2), base_column) /\
    0 < v2 /\ v2 < v1.
Proof.
  apply (flooding_velocity_decreases_with_liquid_load
           base_column 20511 20554 18525);
    try (unfold base_column, vapor_density, liquid_density, surface_tension;
         lra).
  exact base_column_Flv_lower.
Defined.

(** ** Scaled flows with a higher boilup ratio *)


